(** * OmniSell: the front-end API client and the cart/checkout core

    The development has three parts.

    - [Js]: the fragment of JavaScript that [api-service.js] relies on:
      JSON values, truthiness, string conversion, [Object.values],
      [Array.prototype.flat] and [join], exceptions and [try]/[catch].
    - [Client]: the functions of [api-service.js], written over an explicit
      browser state (localStorage and the list of requests handed to
      [fetch]) and a read-only environment (the JSON codec and the network).
    - [Backend]: the cart/checkout/payment core.  The server side is not
      part of the sources; it is modelled from the prose of the
      specification. *)

From Stdlib Require Import ZArith String List Bool Ascii Lia.
From stdpp Require Import base strings gmap pretty.
Import ListNotations.

Local Open Scope string_scope.
Local Open Scope Z_scope.
Local Set Warnings "-register-all".

(* ===================================================================== *)
(** * JavaScript values and the operations the client uses               *)
(* ===================================================================== *)

Module Js.

(** A value as produced by [JSON.parse].  A number is kept as its canonical
    rendering (the result of applying [String] to it), since the client
    never computes with the numbers found in a body; an object is the list
    of its own properties in enumeration order. *)
Inductive json :=
| JNull
| JBool (b : bool)
| JNum (repr : string)
| JStr (s : string)
| JArr (items : list json)
| JObj (props : list (string * json)).

(** What can be thrown.  [Error m] is [new Error(m)]; [Native n] is an
    exception raised by the runtime itself (TypeError, SyntaxError,
    AbortError, ...), whose message is implementation-defined. *)
Inductive exn :=
| Error (message : string)
| Native (name : string).

Definition name (e : exn) : string :=
  match e with
  | Error _ => "Error"
  | Native n => n
  end.

Definition TypeError : exn := Native "TypeError".
Definition SyntaxError : exn := Native "SyntaxError".

(** The outcome of evaluating an expression or awaiting a promise. *)
Inductive completion (A : Type) :=
| Normal (a : A)
| Throw (e : exn).
Arguments Normal {A} a.
Arguments Throw {A} e.

Definition bind {A B} (c : completion A) (k : A -> completion B) : completion B :=
  match c with
  | Normal a => k a
  | Throw e => Throw e
  end.

Definition try_catch {A} (body : completion A) (handler : exn -> completion A)
  : completion A :=
  match body with
  | Normal a => Normal a
  | Throw e => handler e
  end.

Declare Scope js_scope.
Delimit Scope js_scope with js.
Notation "x <- c ;; k" := (bind c (fun x => k))
  (at level 100, c at next level, right associativity) : js_scope.
Local Open Scope js_scope.

(** ** Truthiness: the test performed by [if (v)], [!v] and [v || w] *)

Definition truthy (v : json) : bool :=
  match v with
  | JNull => false
  | JBool b => b
  | JNum r => negb (String.eqb r "0" || String.eqb r "NaN")
  | JStr s => negb (String.eqb s "")
  | JArr _ | JObj _ => true
  end.

(** A property read yields [None] for [undefined]. *)
Definition truthy_opt (v : option json) : bool :=
  match v with
  | Some v => truthy v
  | None => false
  end.

(** [a || b] where [a] is the result of a property read. *)
Definition or_else (a : option json) (b : json) : json :=
  if truthy_opt a then default JNull a else b.

(** ** Property access *)

Fixpoint own_prop (k : string) (props : list (string * json)) : option json :=
  match props with
  | [] => None
  | (k', v) :: rest => if String.eqb k k' then Some v else own_prop k rest
  end.

(** [v.k] for a property name [k] that no built-in prototype defines (the
    client reads [detail], [access] and [token]): reading from [null]
    throws, an object answers with its own property, and arrays and
    primitives answer [undefined]. *)
Definition get_prop (k : string) (v : json) : completion (option json) :=
  match v with
  | JNull => Throw TypeError
  | JObj props => Normal (own_prop k props)
  | _ => Normal None
  end.

Fixpoint set_own (k : string) (v : json) (props : list (string * json))
  : list (string * json) :=
  match props with
  | [] => [(k, v)]
  | (k', v') :: rest =>
      if String.eqb k k' then (k, v) :: rest else (k', v') :: set_own k v rest
  end.

(** [o.k = v] followed by a later [JSON.stringify(o)], for a name [k] that is
    not an array index.  The script is not in strict mode: assigning to a
    property of a primitive is silently dropped, and a named property put on
    an array is not serialised, so in both cases the value that will be
    written out is [o] itself.  Assigning to a property of [null] throws. *)
Definition set_prop (k : string) (v : json) (o : json) : completion json :=
  match o with
  | JNull => Throw TypeError
  | JObj props => Normal (JObj (set_own k v props))
  | _ => Normal o
  end.

(** ** Conversion to string *)

(** [Array.prototype.join]: [null] elements contribute the empty string. *)
Definition join_with (to_string : json -> completion string) (sep : string)
  : list json -> completion string :=
  fix go (l : list json) : completion string :=
    match l with
    | [] => Normal ""
    | x :: rest =>
        s <- match x with JNull => Normal "" | _ => to_string x end ;;
        match rest with
        | [] => Normal s
        | _ => r <- go rest ;; Normal (s +:+ sep +:+ r)
        end
    end.

(** [String(v)].  An array is joined with a comma.  A plain object answers
    through [Object.prototype.toString] unless an own [toString] property,
    which after [JSON.parse] is never callable, hides it; the conversion
    then falls to [valueOf], which cannot produce a primitive, and throws. *)
Fixpoint ToString (v : json) : completion string :=
  match v with
  | JNull => Normal "null"
  | JBool true => Normal "true"
  | JBool false => Normal "false"
  | JNum r => Normal r
  | JStr s => Normal s
  | JArr items => join_with ToString "," items
  | JObj props =>
      match own_prop "toString" props with
      | Some _ => Throw TypeError
      | None => Normal "[object Object]"
      end
  end.

Definition join (sep : string) (l : list json) : completion string :=
  join_with ToString sep l.

(** ** [Object.values] and [Array.prototype.flat] *)

(** A string holds the UTF-8 bytes of a text, while the elements of a
    JavaScript string are its UTF-16 code units.  A character up to U+FFFF
    (one to three bytes) is one code unit.  A character above (four bytes)
    is two, a surrogate pair, and neither half is a text of its own: a half
    is written with the three bytes that its code takes in the UTF-8
    scheme. *)
Definition is_continuation (c : ascii) : bool :=
  let n := N_of_ascii c in ((128 <=? n) && (n <? 192))%N.

(** The characters of a text: every byte that is not a continuation byte,
    with the continuation bytes that follow it. *)
Fixpoint code_points (s : string) : list string :=
  match s with
  | EmptyString => []
  | String c rest =>
      match rest with
      | EmptyString => [String c EmptyString]
      | String c' _ =>
          if is_continuation c' then
            match code_points rest with
            | u :: us => String c u :: us
            | [] => [String c EmptyString]
            end
          else String c EmptyString :: code_points rest
      end
  end.

Definition surrogate (x : N) : string :=
  String (ascii_of_N 237)
    (String (ascii_of_N (128 + (x / 64) mod 64))
       (String (ascii_of_N (128 + x mod 64)) EmptyString)).

(** The code units of one character. *)
Definition code_units (u : string) : list string :=
  match u with
  | String b0 (String b1 (String b2 (String b3 EmptyString))) =>
      if (240 <=? N_of_ascii b0)%N then
        let cp := ((N_of_ascii b0 mod 8) * 262144 + (N_of_ascii b1 mod 64) * 4096
                   + (N_of_ascii b2 mod 64) * 64 + N_of_ascii b3 mod 64)%N in
        let v := (cp - 65536)%N in
        [surrogate (55296 + v / 1024); surrogate (56320 + v mod 1024)]
      else [u]
  | _ => [u]
  end.

(** The elements of a string, as [Object.values] lists them: one string per
    code unit. *)
Definition chars (s : string) : list json :=
  map JStr (flat_map code_units (code_points s)).

Definition Object_values (v : json) : completion (list json) :=
  match v with
  | JNull => Throw TypeError
  | JObj props => Normal (map snd props)
  | JArr items => Normal items
  | JStr s => Normal (chars s)
  | JBool _ | JNum _ => Normal []
  end.

(** [flat()] with its default depth of one. *)
Definition flat (l : list json) : list json :=
  flat_map (fun v => match v with JArr items => items | _ => [v] end) l.

(** [throw new Error(v)]: the message is [String(v)]. *)
Definition throw_new_Error {A} (v : json) : completion A :=
  m <- ToString v ;; Throw (Error m).

(** ** [URLSearchParams] *)

(** The characters that the [application/x-www-form-urlencoded] serializer
    leaves as they are: ASCII letters and digits and [*-._]. *)
Definition is_form_safe (c : ascii) : bool :=
  let n := nat_of_ascii c in
  ((48 <=? n) && (n <=? 57) || (65 <=? n) && (n <=? 90) ||
   (97 <=? n) && (n <=? 122) ||
   (n =? 42) || (n =? 45) || (n =? 46) || (n =? 95))%nat.

Definition hex_digit (n : nat) : ascii :=
  if (n <? 10)%nat then ascii_of_nat (48 + n) else ascii_of_nat (55 + n).

(** The serializer works on the UTF-8 bytes of the text, which is what a
    string stands for here: a space becomes [+], a safe byte stays, any
    other byte becomes [%XX] in upper-case hexadecimal. *)
Fixpoint form_urlencode (s : string) : string :=
  match s with
  | EmptyString => EmptyString
  | String c rest =>
      if is_form_safe c then String c (form_urlencode rest)
      else if Ascii.eqb c " " then String "+" (form_urlencode rest)
      else
        let n := nat_of_ascii c in
        String "%" (String (hex_digit (n / 16)) (String (hex_digit (n mod 16))
          (form_urlencode rest)))
  end.

(** [queryParams.append(name, value)]: the value is converted to a string. *)
Definition append_param (name : string) (value : json)
  (query : list (string * string)) : completion (list (string * string)) :=
  v <- ToString value ;; Normal (query ++ [(name, v)])%list.

(** [queryParams.toString()]. *)
Definition serialize_params (query : list (string * string)) : string :=
  String.concat "&"
    (map (fun nv : string * string =>
            form_urlencode (fst nv) +:+ "=" +:+ form_urlencode (snd nv)) query).

End Js.

(* ===================================================================== *)
(** * The API client ([api-service.js])                                  *)
(* ===================================================================== *)

Module Client.
Import Js.
Local Open Scope js_scope.

Definition API_URL : string := "https://omnisell-2.onrender.com".

(** The second argument of [fetch], together with the URL. *)
Record Request := {
  url : string;
  method : string;
  headers : list (string * string);
  body : option string
}.

(** A [Response]: its status code and what awaiting [response.json()]
    gives, which is the parsed body or the exception the promise rejects
    with (a SyntaxError when the body is not JSON). *)
Record Response := {
  status : Z;
  json_body : completion json
}.

(** [response.ok] is defined by the Fetch standard as a status in 200..299. *)
Definition ok (r : Response) : bool :=
  (200 <=? status r) && (status r <=? 299).

(** ** handleResponse *)

(** The response comes fresh from [fetch], so cloning it succeeds; the
    clone is only written to the console.  Console output is left out
    throughout: nothing the client does reads it back. *)
Definition handleResponse (response : Response) : completion json :=
  try_catch
    (data <- json_body response ;;
     if negb (ok response) then
       if status response =? 401 then
         detail <- get_prop "detail" data ;;
         throw_new_Error (or_else detail (JStr "Authentication failed. Please login again."))
       else if status response =? 403 then
         detail <- get_prop "detail" data ;;
         throw_new_Error (or_else detail (JStr "You do not have permission to perform this action."))
       else if status response =? 404 then
         detail <- get_prop "detail" data ;;
         throw_new_Error (or_else detail (JStr "The requested resource was not found."))
       else if 500 <=? status response then
         throw_new_Error (JStr "Server error. Please try again later.")
       else
         detail <- get_prop "detail" data ;;
         errorMessage <-
           (if truthy_opt detail then Normal (default JNull detail)
            else
              values <- Object_values data ;;
              joined <- join ", " (flat values) ;;
              Normal (if truthy (JStr joined) then JStr joined
                      else JStr "An error occurred")) ;;
         throw_new_Error errorMessage
     else Normal data)
    (fun error =>
       if String.eqb (name error) "SyntaxError" then
         if negb (ok response) then
           Throw (Error ("Request failed with status " +:+ pretty (status response)))
         else Normal (JObj [])
       else Throw error).

(** ** The browser: environment and state *)

(** What the page cannot change: the JSON codec of the runtime and the
    behaviour of the network.  [JSON_parse] answers [None] where
    [JSON.parse] throws a SyntaxError; [network] gives what the promise
    returned by [fetch] settles to. *)
Record Env := {
  JSON_parse : string -> option json;
  JSON_stringify : json -> string;
  network : Request -> completion Response
}.

(** What the client reads and writes: [localStorage], and the requests it
    has handed to [fetch], oldest first. *)
Record Browser := {
  localStorage : gmap string string;
  sent : list Request
}.

Definition M (A : Type) : Type := Browser -> completion A * Browser.

Definition ret {A} (a : A) : M A := fun w => (Normal a, w).
Definition throw {A} (e : exn) : M A := fun w => (Throw e, w).
Definition lift {A} (c : completion A) : M A := fun w => (c, w).

Definition mbind {A B} (m : M A) (k : A -> M B) : M B :=
  fun w =>
    match m w with
    | (Normal a, w') => k a w'
    | (Throw e, w') => (Throw e, w')
    end.

(** [try { body } catch (error) { handler }]: the handler runs in the state
    the body left behind. *)
Definition try_catch_M {A} (body : M A) (handler : exn -> M A) : M A :=
  fun w =>
    match body w with
    | (Normal a, w') => (Normal a, w')
    | (Throw e, w') => handler e w'
    end.

Declare Scope client_scope.
Delimit Scope client_scope with client.
Notation "x <~ c ;; k" := (mbind c (fun x => k))
  (at level 100, c at next level, right associativity) : client_scope.
Notation "c ;;; k" := (mbind c (fun _ => k))
  (at level 100, right associativity) : client_scope.
Local Open Scope client_scope.

(** [item || fallback], for what [getItem] answers: [null] and the empty
    string are falsy. *)
Definition or_text (item : option string) (fallback : string) : string :=
  match item with
  | Some text => if truthy (JStr text) then text else fallback
  | None => fallback
  end.

(** [localStorage.getItem], [setItem] and [removeItem].  The storage is
    taken to have room for what the client writes. *)
Definition getItem (k : string) : M (option string) :=
  fun w => (Normal (localStorage w !! k), w).

Definition setItem (k v : string) : M unit :=
  fun w => (Normal tt, {| localStorage := <[k := v]> (localStorage w); sent := sent w |}).

Definition removeItem (k : string) : M unit :=
  fun w => (Normal tt, {| localStorage := delete k (localStorage w); sent := sent w |}).

Section WithEnv.
Context (env : Env).

Definition parse (text : string) : M json :=
  match JSON_parse env text with
  | Some v => ret v
  | None => throw SyntaxError
  end.

Definition fetch (req : Request) : M Response :=
  fun w => (network env req,
            {| localStorage := localStorage w; sent := (sent w ++ [req])%list |}).

Definition stringify (v : json) : string := JSON_stringify env v.

(** ** Credentials *)

Definition getAuthToken : M json :=
  userData <~ getItem "sellflow_user" ;;
  match userData with
  | Some text =>
      if truthy (JStr text) then
        parsed <~ parse text ;;
        access <~ lift (get_prop "access" parsed) ;;
        if truthy_opt access then ret (default JNull access)
        else
          token <~ lift (get_prop "token" parsed) ;;
          if truthy_opt token then ret (default JNull token) else ret JNull
      else ret JNull
  | None => ret JNull
  end.

Definition getAuthHeaders : M (list (string * string)) :=
  token <~ getAuthToken ;;
  let headers :=
    [("Content-Type", "application/json"); ("Accept", "application/json")] in
  if truthy token then
    bearer <~ lift (ToString token) ;;
    ret (headers ++ [("Authorization", "Bearer " +:+ bearer)])%list
  else ret headers.

Definition json_headers : list (string * string) :=
  [("Content-Type", "application/json"); ("Accept", "application/json")].

(** ** Authentication *)

Definition refreshToken (refreshToken : json) : M json :=
  try_catch_M
    (response <~ fetch {| url := API_URL +:+ "/api/auth/token/refresh/";
                          method := "POST";
                          headers := json_headers;
                          body := Some (stringify (JObj [("refresh", refreshToken)])) |} ;;
     data <~ lift (handleResponse response) ;;
     access <~ lift (get_prop "access" data) ;;
     (if truthy_opt access then
        stored <~ getItem "sellflow_user" ;;
        userData <~ parse (or_text stored "{}") ;;
        userData <~ lift (set_prop "access" (default JNull access) userData) ;;
        setItem "sellflow_user" (stringify userData)
      else ret tt) ;;;
     ret data)
    (fun error =>
       removeItem "sellflow_user" ;;;
       throw error).

Definition verifyToken (token : json) : M bool :=
  try_catch_M
    (response <~ fetch {| url := API_URL +:+ "/api/auth/token/verify/";
                          method := "POST";
                          headers := json_headers;
                          body := Some (stringify (JObj [("token", token)])) |} ;;
     lift (handleResponse response) ;;;
     ret true)
    (fun error => ret false).

(** ** Cart *)

(** [quantity] is [None] when the caller leaves the argument out; the
    parameter then takes its default, 1. *)
Definition addToCart (productId : json) (quantity : option json) : M json :=
  let quantity := default (JNum "1") quantity in
  try_catch_M
    (headers <~ getAuthHeaders ;;
     response <~ fetch {| url := API_URL +:+ "/api/orders/cart/";
                          method := "POST";
                          headers := headers;
                          body := Some (stringify (JObj [("product", productId);
                                                         ("quantity", quantity)])) |} ;;
     data <~ lift (handleResponse response) ;;
     ret data)
    (fun error => throw error).

Definition updateCartItem (itemId quantity : json) : M json :=
  try_catch_M
    (item <~ lift (ToString itemId) ;;
     headers <~ getAuthHeaders ;;
     response <~ fetch {| url := API_URL +:+ "/api/orders/cart/" +:+ item +:+ "/";
                          method := "PATCH";
                          headers := headers;
                          body := Some (stringify (JObj [("quantity", quantity)])) |} ;;
     data <~ lift (handleResponse response) ;;
     ret data)
    (fun error => throw error).

Definition clearCart : M unit :=
  try_catch_M
    (headers <~ getAuthHeaders ;;
     response <~ fetch {| url := API_URL +:+ "/api/orders/cart/clear/";
                          method := "POST";
                          headers := headers;
                          body := None |} ;;
     lift (handleResponse response) ;;;
     ret tt)
    (fun error => throw error).

(** ** Payments *)

Definition processPayment (paymentData : json) : M json :=
  try_catch_M
    (headers <~ getAuthHeaders ;;
     response <~ fetch {| url := API_URL +:+ "/api/orders/payments/";
                          method := "POST";
                          headers := headers;
                          body := Some (stringify paymentData) |} ;;
     data <~ lift (handleResponse response) ;;
     ret data)
    (fun error => throw error).

(** ** The other calls of the client *)

Definition getMultipartHeaders : M (list (string * string)) :=
  token <~ getAuthToken ;;
  let headers := [] in
  if truthy token then
    bearer <~ lift (ToString token) ;;
    ret (headers ++ [("Authorization", "Bearer " +:+ bearer)])%list
  else ret headers.

(** The first statement logs [userData.email]; the read comes before the
    [try] and throws when [userData] is [null]. *)
Definition registerUser (userData : json) : M json :=
  lift (get_prop "email" userData) ;;;
  try_catch_M
    (response <~ fetch {| url := API_URL +:+ "/api/auth/register/";
                          method := "POST";
                          headers := json_headers;
                          body := Some (stringify userData) |} ;;
     data <~ lift (handleResponse response) ;;
     ret data)
    (fun error => throw error).

(** As in [registerUser], [credentials.email] is read before the [try]. *)
Definition loginUser (credentials : json) : M json :=
  lift (get_prop "email" credentials) ;;;
  try_catch_M
    (response <~ fetch {| url := API_URL +:+ "/api/auth/login/";
                          method := "POST";
                          headers := json_headers;
                          body := Some (stringify credentials) |} ;;
     data <~ lift (handleResponse response) ;;
     access <~ lift (get_prop "access" data) ;;
     refresh <~ (if truthy_opt access then lift (get_prop "refresh" data)
                 else ret None) ;;
     (if truthy_opt access && truthy_opt refresh then
        stored <~ getItem "sellflow_user" ;;
        userData <~ parse (or_text stored "{}") ;;
        userData <~ lift (set_prop "access" (default JNull access) userData) ;;
        userData <~ lift (set_prop "refresh" (default JNull refresh) userData) ;;
        userData <~ lift (set_prop "isLoggedIn" (JBool true) userData) ;;
        setItem "sellflow_user" (stringify userData)
      else ret tt) ;;;
     ret data)
    (fun error => throw error).

Definition getPublicProducts : M json :=
  try_catch_M
    (response <~ fetch {| url := API_URL +:+ "/api/products/public/list/";
                          method := "GET";
                          headers := [("Accept", "application/json")];
                          body := None |} ;;
     data <~ lift (handleResponse response) ;;
     ret data)
    (fun error => throw error).

Definition getPublicOrder (orderUuid : json) : M json :=
  try_catch_M
    (uuid <~ lift (ToString orderUuid) ;;
     response <~ fetch {| url := API_URL +:+ "/api/orders/public/order/" +:+ uuid +:+ "/";
                          method := "GET";
                          headers := [("Accept", "application/json")];
                          body := None |} ;;
     data <~ lift (handleResponse response) ;;
     ret data)
    (fun error => throw error).

(** [if (params.k) queryParams.append(k, params.k)]. *)
Definition append_if_truthy (k : string) (params : list (string * json))
  (query : list (string * string)) : completion (list (string * string)) :=
  if truthy_opt (own_prop k params) then
    append_param k (default JNull (own_prop k params)) query
  else Normal query.

(** [params] is documented as an object; it is given by its own properties,
    and [None] stands for a call without the argument, which takes the
    default [{}]. *)
Definition getProducts (params : option (list (string * json))) : M json :=
  let params := default [] params in
  try_catch_M
    (queryParams <~ lift (append_if_truthy "search" params []) ;;
     queryParams <~ lift (append_if_truthy "category" params queryParams) ;;
     queryParams <~ lift (append_if_truthy "page" params queryParams) ;;
     let queryString := serialize_params queryParams in
     let url := API_URL +:+ "/api/products/" +:+
                (if truthy (JStr queryString) then "?" +:+ queryString else "") in
     headers <~ getAuthHeaders ;;
     response <~ fetch {| url := url; method := "GET"; headers := headers;
                          body := None |} ;;
     data <~ lift (handleResponse response) ;;
     ret data)
    (fun error => throw error).

Definition getCart : M json :=
  try_catch_M
    (headers <~ getAuthHeaders ;;
     response <~ fetch {| url := API_URL +:+ "/api/orders/cart/";
                          method := "GET";
                          headers := headers;
                          body := None |} ;;
     data <~ lift (handleResponse response) ;;
     ret data)
    (fun error => throw error).

Definition removeFromCart (itemId : json) : M unit :=
  try_catch_M
    (item <~ lift (ToString itemId) ;;
     headers <~ getAuthHeaders ;;
     response <~ fetch {| url := API_URL +:+ "/api/orders/cart/" +:+ item +:+ "/";
                          method := "DELETE";
                          headers := headers;
                          body := None |} ;;
     lift (handleResponse response) ;;;
     ret tt)
    (fun error => throw error).

Definition createOrder (checkoutData : json) : M json :=
  try_catch_M
    (headers <~ getAuthHeaders ;;
     response <~ fetch {| url := API_URL +:+ "/api/orders/checkout/";
                          method := "POST";
                          headers := headers;
                          body := Some (stringify checkoutData) |} ;;
     data <~ lift (handleResponse response) ;;
     ret data)
    (fun error => throw error).

End WithEnv.

(** ** Requests and outcomes, for stating what the calls do *)

(** The request of [loginUser]. *)
Definition login_request (env : Env) (credentials : json) : Request :=
  {| url := API_URL +:+ "/api/auth/login/";
     method := "POST";
     headers := json_headers;
     body := Some (JSON_stringify env credentials) |}.

(** The three assignments to the stored record. *)
Definition with_tokens (access refresh : json) (userData : json) : completion json :=
  u <- set_prop "access" access userData ;;
  u <- set_prop "refresh" refresh u ;;
  set_prop "isLoggedIn" (JBool true) u.


(** A call that hands at most one request to [fetch]. *)
Definition at_most_one_request (w w' : Browser) : Prop :=
  sent w' = sent w \/ exists req, sent w' = (sent w ++ [req])%list.

(** ** Logging out *)

(** [logoutUser] has two effects: it removes the stored record and it
    reloads the page.  A page is the browser state with the number of
    reloads it went through. *)
Record Page := {
  browser : Browser;
  reloads : nat
}.

Definition logoutUser (p : Page) : Page :=
  {| browser := snd (removeItem "sellflow_user" (browser p));
     reloads := S (reloads p) |}.

End Client.

(* ===================================================================== *)
(** * The cart/checkout/payment core                                     *)
(* ===================================================================== *)

Module Backend.

(** ** Data model *)

(** Modelled from the spec: the status of a Product (section 3); the server
    is not in the sources, which hold the client only. *)
Inductive ProductStatus := Draft | Active | Inactive | Archived.

(** Modelled from the spec: the status of an Order (section 3). *)
Inductive OrderStatus := OPending | Confirmed | Shipped | Delivered | Cancelled.

(** Modelled from the spec: the status of a Payment (section 3). *)
Inductive PaymentStatus := Pending | Completed | Failed.

(** Modelled from the spec: the Product row of section 3.  Prices are
    decimal amounts, kept in minor units of the currency. *)
Record Product := {
  product_name : string;
  price : Z;
  stock_quantity : Z;
  product_status : ProductStatus;
  seller : Z
}.

(** Modelled from the spec: the CartItem of section 3, a product reference
    with a quantity. *)
Record CartItem := {
  item_id : Z;
  product : Z;
  quantity : Z
}.

(** Modelled from the spec: the shipping fields of a checkout request
    (section 6), with the field names README.md gives them. *)
Record ShippingInfo := {
  full_name : string;
  phone : string;
  address_line1 : string;
  address_line2 : string;
  city : string;
  state : string;
  postal_code : string;
  country : string;
  delivery_instructions : string
}.

(** Modelled from the spec: a line item frozen inside an Order, with the
    unit price copied at the time of purchase (section 3). *)
Record OrderLine := {
  line_product : Z;
  line_name : string;
  line_quantity : Z;
  unit_price : Z
}.

(** Modelled from the spec: the Order of section 3. *)
Record Order := {
  order_buyer : Z;
  order_lines : list OrderLine;
  shipping_address : ShippingInfo;
  order_status : OrderStatus;
  total_amount : Z
}.

(** Modelled from the spec: the Payment of section 3. *)
Record Payment := {
  payment_order : Z;
  payment_method : string;
  payment_status : PaymentStatus;
  transaction_id : option string
}.

(** Modelled from the spec: the transactional relational store that is the
    only persistence mechanism (section 6).  Each table is a finite map
    from identifier to row; a buyer without a cart row has an empty cart.
    [provider_calls] records the payments submitted to the payment
    provider, oldest first. *)
Record Store := {
  products : gmap Z Product;
  carts : gmap Z (list CartItem);
  orders : gmap Z Order;
  payments : gmap Z Payment;
  next_order : Z;
  next_payment : Z;
  provider_calls : list Z
}.

(** Modelled from the spec: the error taxonomy of section 7.  A failed
    transaction is reported as a failed checkout; the spec gives that
    report no kind of its own, [TransactionFailed] stands for it. *)
Inductive Error :=
| NotFound
| InvalidInput
| InsufficientStock (offending : Z)
| EmptyCart
| Unauthorized
| Forbidden
| Conflict
| ProviderError
| TransactionFailed.

(** Modelled from the spec: an operation of the core answers with a value
    or with an error of the taxonomy. *)
Inductive result (A : Type) :=
| Ok (a : A)
| Err (e : Error).
Arguments Ok {A} a.
Arguments Err {A} e.

(** ** The transactional store *)

(** Modelled from the spec: the four kinds of row change that step 3 of
    checkout performs. *)
Inductive Write :=
| DecrementStock (pid qty : Z)
| InsertOrder (o : Order)
| InsertPayment (p : Payment)
| ClearCart (buyer : Z).

(** Modelled from the spec: a product row with its [stock_quantity]
    decremented by the purchased quantity. *)
Definition decrement (qty : Z) (p : Product) : Product :=
  {| product_name := product_name p;
     price := price p;
     stock_quantity := stock_quantity p - qty;
     product_status := product_status p;
     seller := seller p |}.

(** Modelled from the spec: what one write does to the tables.  A new
    order or payment takes the next free identifier of its table. *)
Definition apply_write (w : Write) (s : Store) : Store :=
  match w with
  | DecrementStock pid qty =>
      {| products := alter (decrement qty) pid (products s);
         carts := carts s; orders := orders s; payments := payments s;
         next_order := next_order s; next_payment := next_payment s;
         provider_calls := provider_calls s |}
  | InsertOrder o =>
      {| products := products s; carts := carts s;
         orders := <[next_order s := o]> (orders s);
         payments := payments s;
         next_order := next_order s + 1; next_payment := next_payment s;
         provider_calls := provider_calls s |}
  | InsertPayment p =>
      {| products := products s; carts := carts s; orders := orders s;
         payments := <[next_payment s := p]> (payments s);
         next_order := next_order s; next_payment := next_payment s + 1;
         provider_calls := provider_calls s |}
  | ClearCart buyer =>
      {| products := products s;
         carts := <[buyer := []]> (carts s);
         orders := orders s; payments := payments s;
         next_order := next_order s; next_payment := next_payment s;
         provider_calls := provider_calls s |}
  end.

(** Modelled from the spec: a sequence of writes, applied in order. *)
Definition apply_writes (ws : list Write) (s : Store) : Store :=
  fold_left (fun acc w => apply_write w acc) ws s.

(** Modelled from the spec: a transaction of the store (sections 4.2 and
    5).  The writes go one after the other to a working copy; the storage
    layer may refuse any of them, or the commit that follows the last one.
    [fault n] tells whether the [n]-th operation of the transaction, counted
    from [from], is refused.  The result is the committed store, or [None]
    when the transaction was rolled back. *)
Fixpoint run_writes (fault : nat -> bool) (from : nat) (ws : list Write)
  (working : Store) : option Store :=
  match ws with
  | [] => if fault from then None else Some working
  | w :: rest =>
      if fault from then None
      else run_writes fault (S from) rest (apply_write w working)
  end.

(** Modelled from the spec: "atomically" of step 3, one transaction from
    its first operation. *)
Definition atomically (fault : nat -> bool) (ws : list Write) (s : Store)
  : option Store :=
  run_writes fault 0 ws s.

(** ** Checkout (section 4.2) *)

(** Modelled from the spec: step 1 of checkout, loading the buyer's cart. *)
Definition cart_of (buyer : Z) (s : Store) : list CartItem :=
  default [] (carts s !! buyer).

(** Modelled from the spec: "Product is still active" of step 2. *)
Definition is_active (p : Product) : bool :=
  match product_status p with
  | Active => true
  | _ => false
  end.

(** Modelled from the spec: step 2 of checkout.  Every cart item is checked
    against the current product row; the first item whose product is
    missing, not active or short of stock is named in the failure. *)
Fixpoint revalidate (s : Store) (items : list CartItem)
  : result (list (CartItem * Product)) :=
  match items with
  | [] => Ok []
  | it :: rest =>
      match products s !! product it with
      | Some p =>
          if is_active p && (quantity it <=? stock_quantity p) then
            match revalidate s rest with
            | Ok checked => Ok ((it, p) :: checked)
            | Err e => Err e
            end
          else Err (InsufficientStock (product it))
      | None => Err (InsufficientStock (product it))
      end
  end.

(** Modelled from the spec: the line-item snapshot, the price copied from
    the product row at checkout. *)
Definition snapshot (ip : CartItem * Product) : OrderLine :=
  {| line_product := product (fst ip);
     line_name := product_name (snd ip);
     line_quantity := quantity (fst ip);
     unit_price := price (snd ip) |}.

(** Modelled from the spec: [total_amount] is the sum of quantity times
    unit price over the line items (section 3). *)
Definition line_total (l : OrderLine) : Z := line_quantity l * unit_price l.

(** Modelled from the spec: the sum of the line totals. *)
Definition sum_lines (ls : list OrderLine) : Z :=
  fold_right (fun l acc => line_total l + acc) 0 ls.

(** Modelled from the spec: the Order that checkout creates, in status
    pending, with its total computed at creation. *)
Definition new_order (buyer : Z) (shipping : ShippingInfo)
  (checked : list (CartItem * Product)) : Order :=
  let lines := map snapshot checked in
  {| order_buyer := buyer;
     order_lines := lines;
     shipping_address := shipping;
     order_status := OPending;
     total_amount := sum_lines lines |}.

(** Modelled from the spec: the Payment row that checkout creates, in
    status pending. *)
Definition new_payment (order : Z) (method : string) : Payment :=
  {| payment_order := order;
     payment_method := method;
     payment_status := Pending;
     transaction_id := None |}.

(** Modelled from the spec: the writes of step 3, in the order in which the
    four effects are listed. *)
Definition checkout_writes (s : Store) (buyer : Z) (shipping : ShippingInfo)
  (method : string) (checked : list (CartItem * Product)) : list Write :=
  (map (fun ip : CartItem * Product =>
          DecrementStock (product (fst ip)) (quantity (fst ip))) checked
   ++ [InsertOrder (new_order buyer shipping checked);
       InsertPayment (new_payment (next_order s) method);
       ClearCart buyer])%list.

(** Modelled from the spec: [checkout(buyer, shipping_info, payment_method)]
    of section 4.2.  It answers with the created order and its payment,
    each with its identifier. *)
Definition checkout (fault : nat -> bool) (buyer : Z) (shipping : ShippingInfo)
  (method : string) (s : Store)
  : result ((Z * Order) * (Z * Payment)) * Store :=
  match cart_of buyer s with
  | [] => (Err EmptyCart, s)
  | items =>
      match revalidate s items with
      | Err e => (Err e, s)
      | Ok checked =>
          match atomically fault (checkout_writes s buyer shipping method checked) s with
          | Some s' =>
              (Ok ((next_order s, new_order buyer shipping checked),
                   (next_payment s, new_payment (next_order s) method)), s')
          | None => (Err TransactionFailed, s)
          end
      end
  end.

(** Modelled from the spec: the first effect of step 3 seen on the product
    table, every purchased product's [stock_quantity] decremented by the
    purchased quantity. *)
Definition decrement_stock (checked : list (CartItem * Product))
  (table : gmap Z Product) : gmap Z Product :=
  fold_left (fun m (ip : CartItem * Product) =>
               alter (decrement (quantity (fst ip))) (product (fst ip)) m)
            checked table.

(** Modelled from the spec: the store once the four effects of step 3
    are all in place: stock decremented, order created, pending payment
    created, cart cleared. *)
Definition after_checkout (s : Store) (buyer : Z) (shipping : ShippingInfo)
  (method : string) (checked : list (CartItem * Product)) : Store :=
  {| products := decrement_stock checked (products s);
     carts := <[buyer := []]> (carts s);
     orders := <[next_order s := new_order buyer shipping checked]> (orders s);
     payments := <[next_payment s := new_payment (next_order s) method]> (payments s);
     next_order := next_order s + 1;
     next_payment := next_payment s + 1;
     provider_calls := provider_calls s |}.

(** ** Payment processing (section 4.3) *)

(** Modelled from the spec: an order moves from pending to confirmed when
    its payment reaches completed; no other status is touched. *)
Definition confirm (o : Order) : Order :=
  {| order_buyer := order_buyer o;
     order_lines := order_lines o;
     shipping_address := shipping_address o;
     order_status := match order_status o with
                     | OPending => Confirmed
                     | other => other
                     end;
     total_amount := total_amount o |}.

(** Modelled from the spec: a pending payment becomes completed, with the
    transaction id assigned, on confirmation by the provider, and failed on
    a decline or timeout. *)
Definition settle (p : Payment) (outcome : option string) : Payment :=
  {| payment_order := payment_order p;
     payment_method := payment_method p;
     payment_status := match outcome with Some _ => Completed | None => Failed end;
     transaction_id := outcome |}.

(** Modelled from the spec: [process_payment(payment_id)].  [provider]
    stands for the external payment provider: it answers a transaction
    identifier when it confirms the payment and [None] when it declines or
    times out.  A pending payment is submitted to the provider and moves to
    [Completed] (its order, if still pending, becoming confirmed) or to
    [Failed]; a payment that has left [Pending] is answered from its
    record. *)
Definition process_payment (provider : Z -> Payment -> option string)
  (payment_id : Z) (s : Store)
  : result (PaymentStatus * option string) * Store :=
  match payments s !! payment_id with
  | None => (Err NotFound, s)
  | Some p =>
      match payment_status p with
      | Pending =>
          let outcome := provider payment_id p in
          let p' := settle p outcome in
          (Ok (payment_status p', transaction_id p'),
           {| products := products s;
              carts := carts s;
              orders := match outcome with
                        | Some _ => alter confirm (payment_order p) (orders s)
                        | None => orders s
                        end;
              payments := <[payment_id := p']> (payments s);
              next_order := next_order s;
              next_payment := next_payment s;
              provider_calls := (provider_calls s ++ [payment_id])%list |})
      | Completed | Failed =>
          (Ok (payment_status p, transaction_id p), s)
      end
  end.

(** ** A sample shop *)

(** Modelled from the spec: the scenario of section 8, product A at 10.00
    and product B at 5.00, and a buyer, account 10, with two of A and one of
    B in the cart.  Account 11 has never opened a cart. *)
Module Shop.

Definition product_A : Product :=
  {| product_name := "A"; price := 1000; stock_quantity := 5;
     product_status := Active; seller := 1 |}.

Definition product_B : Product :=
  {| product_name := "B"; price := 500; stock_quantity := 3;
     product_status := Active; seller := 1 |}.

Definition cart : list CartItem :=
  [{| item_id := 1; product := 1; quantity := 2 |};
   {| item_id := 2; product := 2; quantity := 1 |}].

Definition address : ShippingInfo :=
  {| full_name := "John Doe"; phone := "+233501234567";
     address_line1 := "123 Main Street"; address_line2 := "Apt 4B";
     city := "Accra"; state := "Greater Accra"; postal_code := "00233";
     country := "Ghana"; delivery_instructions := "Leave at door" |}.

Definition open_shop : Store :=
  {| products := {[ 1 := product_A; 2 := product_B ]};
     carts := {[ 10 := cart ]};
     orders := ∅;
     payments := ∅;
     next_order := 1;
     next_payment := 1;
     provider_calls := [] |}.

(** A storage layer that never refuses, and one that refuses the third
    operation of a transaction. *)
Definition reliable : nat -> bool := fun _ => false.
Definition failing_third : nat -> bool := fun n => Nat.eqb n 2.

(** A provider that confirms every payment, and one that declines. *)
Definition confirming : Z -> Payment -> option string :=
  fun _ _ => Some "TXN20240115103000".
Definition declining : Z -> Payment -> option string :=
  fun _ _ => None.

(** The shop after the buyer's checkout, and after the provider has
    confirmed the payment. *)
Definition after_sale : Store :=
  snd (checkout reliable 10 address "card" open_shop).
Definition paid : Store :=
  snd (process_payment confirming 1 after_sale).

End Shop.

End Backend.

(* ===================================================================== *)
(** * The HTTP surface documented in README.md                           *)
(* ===================================================================== *)

Module Readme.
Import Client.

Record Endpoint := {
  doc_method : string;
  doc_path : string
}.

Definition doc_url (e : Endpoint) : string := API_URL +:+ doc_path e.

(** "Add to Cart": [POST /api/orders/cart/add_item/], request body with
    the keys [product_id] and [quantity]. *)
Definition add_to_cart : Endpoint :=
  {| doc_method := "POST"; doc_path := "/api/orders/cart/add_item/" |}.
Definition add_to_cart_keys : list string := ["product_id"; "quantity"].

(** "Update Cart Item": [PUT /api/orders/cart/update_item/{item_id}/]. *)
Definition update_cart_item (item_id : string) : Endpoint :=
  {| doc_method := "PUT";
     doc_path := "/api/orders/cart/update_item/" +:+ item_id +:+ "/" |}.
Definition update_cart_item_keys : list string := ["quantity"].

(** "Clear Cart": [DELETE /api/orders/cart/clear/]. *)
Definition clear_cart : Endpoint :=
  {| doc_method := "DELETE"; doc_path := "/api/orders/cart/clear/" |}.

(** "Process Payment": [POST /api/orders/payments/{id}/process/]. *)
Definition process_payment (id : string) : Endpoint :=
  {| doc_method := "POST";
     doc_path := "/api/orders/payments/" +:+ id +:+ "/process/" |}.

Definition matches (e : Endpoint) (r : Request) : Prop :=
  method r = doc_method e /\ url r = doc_url e.

End Readme.

(* ===================================================================== *)
(** * A sample browser, for running the client on concrete inputs        *)
(* ===================================================================== *)

Module Sample.
Import Js Client.

Definition quote : string := String (ascii_of_nat 34) EmptyString.

(** Quotes and backslashes are escaped; the sample documents hold no
    control characters. *)
Fixpoint escape (s : string) : string :=
  match s with
  | EmptyString => EmptyString
  | String c rest =>
      if Ascii.eqb c (ascii_of_nat 34) then "\" +:+ quote +:+ escape rest
      else if Ascii.eqb c (ascii_of_nat 92) then "\\" +:+ escape rest
      else String c (escape rest)
  end.

(** The text [JSON.stringify] writes for a value. *)
Fixpoint render (v : json) : string :=
  match v with
  | JNull => "null"
  | JBool true => "true"
  | JBool false => "false"
  | JNum r => if String.eqb r "NaN" then "null" else r
  | JStr s => quote +:+ escape s +:+ quote
  | JArr items =>
      "[" +:+
      (fix go (l : list json) : string :=
         match l with
         | [] => ""
         | x :: rest =>
             match rest with
             | [] => render x
             | _ => render x +:+ "," +:+ go rest
             end
         end) items +:+ "]"
  | JObj props =>
      "{" +:+
      (fix go (l : list (string * json)) : string :=
         match l with
         | [] => ""
         | (k, x) :: rest =>
             match rest with
             | [] => quote +:+ escape k +:+ quote +:+ ":" +:+ render x
             | _ => quote +:+ escape k +:+ quote +:+ ":" +:+ render x +:+ "," +:+ go rest
             end
         end) props +:+ "}"
  end.

(** A reader for a known set of documents: the text is read back as the
    document that renders to it; any other text is a syntax error. *)
Definition read_among (known : list json) (text : string) : option json :=
  find (fun v => String.eqb (render v) text) known.

(** The record a logged-in page keeps under [sellflow_user]. *)
Definition stored_user : json :=
  JObj [("email", JStr "ama@example.com");
        ("access", JStr "old-access");
        ("refresh", JStr "refresh-1");
        ("isLoggedIn", JBool true)].

Definition env_with (net : Request -> completion Response) : Env :=
  {| JSON_parse := read_among [stored_user; JObj []];
     JSON_stringify := render;
     network := net |}.

Definition logged_in : Browser :=
  {| localStorage := {[ "sellflow_user" := render stored_user ]};
     sent := [] |}.

Definition logged_out : Browser :=
  {| localStorage := ∅; sent := [] |}.

Definition respond (code : Z) (b : json) : Request -> completion Response :=
  fun _ => Normal {| status := code; json_body := Normal b |}.

Definition offline : Request -> completion Response :=
  fun _ => Throw TypeError.

(** A server that accepts whatever it is sent. *)
Definition accepting : Env := env_with (respond 200 (JObj [])).

(** A server that hands out a new access token. *)
Definition refreshing : Env :=
  env_with (respond 200 (JObj [("access", JStr "new-access")])).

(** A server that turns the token down. *)
Definition rejecting : Env :=
  env_with (respond 401 (JObj [("detail", JStr "Token is invalid or expired")])).

(** The headers of an authenticated request of the logged-in page. *)
Definition bearer_headers : list (string * string) :=
  [("Content-Type", "application/json");
   ("Accept", "application/json");
   ("Authorization", "Bearer old-access")].

(** A 503 answer whose body carries a [detail]. *)
Definition unavailable : Response :=
  {| status := 503;
     json_body := Normal (JObj [("detail", JStr "Database unavailable")]) |}.

(** A 400 answer with field errors, in the shape the REST framework of the
    backend gives them. *)
Definition field_errors : json :=
  JObj [("email", JArr [JStr "Enter a valid email address."]);
        ("password", JArr [JStr "This field is required."; JStr "Too short."])].

Definition bad_request : Response :=
  {| status := 400; json_body := Normal field_errors |}.

(** The body with which the REST framework of the backend reports field
    errors: every field with the list of its messages. *)
Definition field_error_body (errors : list (string * list string)) : json :=
  JObj (map (fun e : string * list string => (fst e, JArr (map JStr (snd e))))
            errors).

(** The tokens a successful login answers with, and the record the page
    holds afterwards. *)
Definition login_tokens : json :=
  JObj [("access", JStr "access-2"); ("refresh", JStr "refresh-2")].

Definition user_after_login : json :=
  JObj [("email", JStr "ama@example.com");
        ("access", JStr "access-2");
        ("refresh", JStr "refresh-2");
        ("isLoggedIn", JBool true)].

(** A server that logs the user in, seen from a runtime that can read the
    new record back. *)
Definition logging_in : Env :=
  {| JSON_parse := read_among [stored_user; user_after_login; JObj []];
     JSON_stringify := render;
     network := respond 200 login_tokens |}.

Definition credentials : json :=
  JObj [("email", JStr "ama@example.com"); ("password", JStr "s3cret-Pass")].

(** A page whose stored record is the JSON number 5, and a runtime that
    reads it, in front of a server that hands out a new access token. *)
Definition numbered : Browser :=
  {| localStorage := {[ "sellflow_user" := "5" ]};
     sent := [] |}.

Definition refreshing_any : Env :=
  {| JSON_parse := read_among [JNum "5"; stored_user; JObj []];
     JSON_stringify := render;
     network := respond 200 (JObj [("access", JStr "new-access")]) |}.

(** A page whose stored record is not JSON. *)
Definition corrupted : Browser :=
  {| localStorage := {[ "sellflow_user" := "{not json" ]};
     sent := [] |}.

End Sample.

(* ===================================================================== *)
(** * Properties of the API client                                       *)
(* ===================================================================== *)

Module ClientProofs.
Import Js Client.
Local Open Scope js_scope.
Local Open Scope client_scope.

(** ** Strings and URLs *)

Lemma append_nil_r (s : string) : s +:+ "" = s.
Proof.
  induction s as [|c s IH]; [reflexivity|].
  change (String c (s +:+ "") = String c s). now rewrite IH.
Qed.

Lemma append_not_nil_r (a b : string) : b <> "" -> a +:+ b <> "".
Proof.
  intros Hb H. destruct a as [|c a].
  - apply Hb. exact H.
  - change (String c (a +:+ b) = "") in H. discriminate.
Qed.

(** A URL is never its own strict extension. *)
Lemma url_strict_extension (prefix suffix : string) :
  suffix <> "" -> prefix <> prefix +:+ suffix.
Proof.
  intros Hs H. rewrite <- (append_nil_r prefix) in H at 1.
  apply (inj (String.app prefix)) in H. congruence.
Qed.

(** ** Reading the credentials does not change the browser *)

Lemma getAuthToken_state (env : Env) (w : Browser) :
  (getAuthToken env w).2 = w.
Proof.
  unfold getAuthToken, mbind, getItem, parse, lift, ret, throw.
  destruct (localStorage w !! "sellflow_user") as [text|]; simpl; [|reflexivity].
  destruct (negb (String.eqb text "")); simpl; [|reflexivity].
  destruct (JSON_parse env text) as [parsed|]; simpl; [|reflexivity].
  destruct (get_prop "access" parsed) as [access|]; simpl; [|reflexivity].
  destruct (truthy_opt access); simpl; [reflexivity|].
  destruct (get_prop "token" parsed) as [token|]; simpl; [|reflexivity].
  destruct (truthy_opt token); reflexivity.
Qed.

Lemma getAuthHeaders_state (env : Env) (w : Browser) :
  (getAuthHeaders env w).2 = w.
Proof.
  unfold getAuthHeaders, mbind.
  pose proof (getAuthToken_state env w) as H.
  destruct (getAuthToken env w) as [[token|e] w']; simpl in H; subst w'; [|reflexivity].
  destruct (truthy token); [|reflexivity].
  unfold lift, ret. destruct (ToString token); reflexivity.
Qed.

(** When the credentials cannot be read, a call that needs them stops
    before [fetch]. *)
Lemma getAuthHeaders_cases (env : Env) (w : Browser) :
  (exists hs, getAuthHeaders env w = (Normal hs, w)) \/
  (exists e, getAuthHeaders env w = (Throw e, w)).
Proof.
  pose proof (getAuthHeaders_state env w) as H.
  destruct (getAuthHeaders env w) as [[hs|e] w']; simpl in H; subst w'; eauto.
Qed.

(** ** The requests issued by the cart and payment calls *)

(** Runs a call up to and through its single [fetch], given the outcome
    [H] of reading the credentials, and splits on what the network and
    [handleResponse] answer. *)
Ltac run_client H :=
  unfold try_catch_M, mbind, fetch, lift, ret, throw, stringify;
  rewrite H; simpl;
  repeat case_match; simplify_eq/=; try reflexivity.

(** When the stored credentials cannot be read, the cart and payment calls
    fail with that error and hand nothing to [fetch]. *)
Lemma no_credentials_no_request (env : Env) (w : Browser) (e : exn) :
  getAuthHeaders env w = (Throw e, w) ->
  (forall productId quantity, addToCart env productId quantity w = (Throw e, w)) /\
  (forall itemId quantity item, ToString itemId = Normal item ->
     updateCartItem env itemId quantity w = (Throw e, w)) /\
  clearCart env w = (Throw e, w) /\
  (forall paymentData, processPayment env paymentData w = (Throw e, w)).
Proof.
  intros H. repeat split; intros.
  - unfold addToCart. run_client H.
  - unfold updateCartItem, try_catch_M, mbind, lift at 1.
    match goal with Hi : ToString _ = _ |- _ => rewrite Hi end. run_client H.
  - unfold clearCart. run_client H.
  - unfold processPayment. run_client H.
Qed.

(** C4.  README.md documents payment processing as
    [POST /api/orders/payments/{id}/process/], the payment id being part of
    the path.  [processPayment] posts to [/api/orders/payments/] whatever
    its argument, which it sends as the body: the request it issues matches
    the documented endpoint for no id. *)
Theorem processPayment_request (env : Env) (paymentData : json) (w : Browser)
  (hs : list (string * string)) :
  getAuthHeaders env w = (Normal hs, w) ->
  let req := {| url := API_URL +:+ "/api/orders/payments/";
                method := "POST";
                headers := hs;
                body := Some (JSON_stringify env paymentData) |} in
  sent (processPayment env paymentData w).2 = (sent w ++ [req])%list /\
  forall id, ~ Readme.matches (Readme.process_payment id) req.
Proof.
  intros H req. split.
  - subst req. unfold processPayment. run_client H.
  - intros id [_ Hurl]. unfold Readme.doc_url in Hurl. simpl in Hurl.
    apply (inj (String.app API_URL)) in Hurl.
    revert Hurl. apply url_strict_extension.
    apply append_not_nil_r. discriminate.
Qed.

(** The page pays for payment 5: the id travels in the body, the path has
    none. *)
Lemma processPayment_request_witness :
  sent (processPayment Sample.accepting (JNum "5") Sample.logged_in).2
  = [{| url := API_URL +:+ "/api/orders/payments/";
        method := "POST";
        headers := Sample.bearer_headers;
        body := Some (Sample.render (JNum "5")) |}].
Proof.
  exact (proj1 (processPayment_request Sample.accepting (JNum "5") Sample.logged_in
                  Sample.bearer_headers ltac:(vm_compute; reflexivity))).
Defined.

(** C5.  README.md documents adding to the cart as
    [POST /api/orders/cart/add_item/] with the body keys [product_id] and
    [quantity].  [addToCart] posts to [/api/orders/cart/] with the keys
    [product] and [quantity]. *)
Theorem addToCart_request (env : Env) (productId : json) (quantity : option json)
  (w : Browser) (hs : list (string * string)) :
  getAuthHeaders env w = (Normal hs, w) ->
  let payload := [("product", productId); ("quantity", default (JNum "1") quantity)] in
  let req := {| url := API_URL +:+ "/api/orders/cart/";
                method := "POST";
                headers := hs;
                body := Some (JSON_stringify env (JObj payload)) |} in
  sent (addToCart env productId quantity w).2 = (sent w ++ [req])%list /\
  ~ Readme.matches Readme.add_to_cart req /\
  map fst payload <> Readme.add_to_cart_keys.
Proof.
  intros H payload req. split; [|split].
  - subst req payload. unfold addToCart. run_client H.
  - intros [_ Hurl]. vm_compute in Hurl. discriminate.
  - vm_compute. discriminate.
Qed.

(** Two units of product 7 go to the cart. *)
Lemma addToCart_request_witness :
  sent (addToCart Sample.accepting (JNum "7") (Some (JNum "2")) Sample.logged_in).2
  = [{| url := API_URL +:+ "/api/orders/cart/";
        method := "POST";
        headers := Sample.bearer_headers;
        body := Some (Sample.render (JObj [("product", JNum "7");
                                           ("quantity", JNum "2")])) |}].
Proof.
  exact (proj1 (addToCart_request Sample.accepting (JNum "7") (Some (JNum "2"))
                  Sample.logged_in Sample.bearer_headers
                  ltac:(vm_compute; reflexivity))).
Defined.

(** C6.  README.md documents the update of a cart item as
    [PUT /api/orders/cart/update_item/{item_id}/] with the body [{quantity}].
    [updateCartItem] sends the body [{quantity}] with the method PATCH to
    [/api/orders/cart/{itemId}/]. *)
Theorem updateCartItem_request (env : Env) (itemId quantity : json) (w : Browser)
  (item : string) (hs : list (string * string)) :
  ToString itemId = Normal item ->
  getAuthHeaders env w = (Normal hs, w) ->
  let payload := [("quantity", quantity)] in
  let req := {| url := API_URL +:+ "/api/orders/cart/" +:+ item +:+ "/";
                method := "PATCH";
                headers := hs;
                body := Some (JSON_stringify env (JObj payload)) |} in
  sent (updateCartItem env itemId quantity w).2 = (sent w ++ [req])%list /\
  map fst payload = Readme.update_cart_item_keys /\
  forall id, ~ Readme.matches (Readme.update_cart_item id) req.
Proof.
  intros Hitem H payload req. split; [|split].
  - subst req payload. unfold updateCartItem, try_catch_M, mbind, lift at 1.
    rewrite Hitem. run_client H.
  - reflexivity.
  - intros id [Hm _]. discriminate.
Qed.

(** Cart item 12 is set to three units. *)
Lemma updateCartItem_request_witness :
  sent (updateCartItem Sample.accepting (JNum "12") (JNum "3") Sample.logged_in).2
  = [{| url := API_URL +:+ "/api/orders/cart/" +:+ "12" +:+ "/";
        method := "PATCH";
        headers := Sample.bearer_headers;
        body := Some (Sample.render (JObj [("quantity", JNum "3")])) |}].
Proof.
  exact (proj1 (updateCartItem_request Sample.accepting (JNum "12") (JNum "3")
                  Sample.logged_in "12" Sample.bearer_headers
                  eq_refl ltac:(vm_compute; reflexivity))).
Defined.

(** C7.  README.md documents clearing the cart as
    [DELETE /api/orders/cart/clear/].  [clearCart] addresses that path with
    the method POST, and without a body. *)
Theorem clearCart_request (env : Env) (w : Browser) (hs : list (string * string)) :
  getAuthHeaders env w = (Normal hs, w) ->
  let req := {| url := API_URL +:+ "/api/orders/cart/clear/";
                method := "POST";
                headers := hs;
                body := None |} in
  sent (clearCart env w).2 = (sent w ++ [req])%list /\
  url req = Readme.doc_url Readme.clear_cart /\
  method req <> Readme.doc_method Readme.clear_cart.
Proof.
  intros H req. split; [|split].
  - subst req. unfold clearCart. run_client H.
  - reflexivity.
  - discriminate.
Qed.

(** The logged-in page empties its cart. *)
Lemma clearCart_request_witness :
  sent (clearCart Sample.accepting Sample.logged_in).2
  = [{| url := API_URL +:+ "/api/orders/cart/clear/";
        method := "POST";
        headers := Sample.bearer_headers;
        body := None |}].
Proof.
  exact (proj1 (clearCart_request Sample.accepting Sample.logged_in
                  Sample.bearer_headers ltac:(vm_compute; reflexivity))).
Defined.

(** ** handleResponse *)

Lemma throw_new_Error_throws {A} (v : json) :
  exists e, @throw_new_Error A v = Throw e.
Proof.
  unfold throw_new_Error, bind. destruct (ToString v); eauto.
Qed.

(** With a response that is not OK, whatever is thrown inside the [try]
    block leaves [handleResponse] as an exception. *)
Lemma catch_not_ok_throws (r : Response) (e : exn) :
  ok r = false ->
  exists e',
    (if String.eqb (name e) "SyntaxError" then
       if negb (ok r) then
         Throw (Error ("Request failed with status " +:+ pretty (status r)))
       else Normal (JObj [])
     else Throw e) = Throw e'.
Proof.
  intros Hok. rewrite Hok. simpl. destruct (String.eqb (name e) "SyntaxError"); eauto.
Qed.

(** A response that is not OK never yields a value, whatever its body:
    JSON, not JSON, or unreadable. *)
Lemma handleResponse_not_ok_throws (r : Response) :
  ok r = false -> exists e, handleResponse r = Throw e.
Proof.
  intros Hok. unfold handleResponse.
  match goal with
  | |- exists e, try_catch ?b ?h = Throw e =>
      assert (Hb : exists e0, b = Throw e0)
  end.
  { destruct (json_body r) as [data|e0]; simpl; [|eauto].
    rewrite Hok. simpl.
    destruct (status r =? 401); [|destruct (status r =? 403);
      [|destruct (status r =? 404); [|destruct (500 <=? status r)]]];
    try (destruct (get_prop "detail" data) as [detail|e0]; simpl; [|eauto]);
    try apply throw_new_Error_throws.
    destruct (truthy_opt detail); simpl; [apply throw_new_Error_throws|].
    destruct (Object_values data) as [values|e0]; simpl; [|eauto].
    destruct (join ", " (flat values)) as [joined|e0]; simpl; [|eauto].
    apply throw_new_Error_throws. }
  destruct Hb as [e0 Hb]. rewrite Hb. simpl.
  apply catch_not_ok_throws. exact Hok.
Qed.

(** C8, the claim as stated fails: a 503 response whose JSON body has a
    [detail] field is reported with the generic server-error message, not
    with the detail. *)
Lemma handleResponse_server_error_drops_detail :
  ok Sample.unavailable = false /\
  json_body Sample.unavailable
    = Normal (JObj [("detail", JStr "Database unavailable")]) /\
  handleResponse Sample.unavailable
    = Throw (Error "Server error. Please try again later.") /\
  handleResponse Sample.unavailable <> Throw (Error "Database unavailable").
Proof.
  repeat split; try reflexivity. vm_compute. discriminate.
Qed.

(** C8, amended.  For a response whose body parses as JSON:
    an OK response yields the parsed body; a response that is not OK never
    yields a value, [handleResponse] throws.  What it throws, when the
    conversions to string succeed: for a status of 500 or more, the generic
    server-error message whatever the body says; below 500, the [detail] of
    the body when that is truthy; otherwise the message for 401, for 403 or
    for 404, and for any other status the values of the body, flattened
    once and joined with a comma and a space, or a fixed message when that
    text is empty. *)
Theorem handleResponse_outcome (r : Response) (data : json) :
  json_body r = Normal data ->
  (ok r = true -> handleResponse r = Normal data) /\
  (ok r = false ->
   (exists e, handleResponse r = Throw e) /\
   (500 <= status r ->
    handleResponse r = Throw (Error "Server error. Please try again later.")) /\
   (status r < 500 ->
    forall detail m,
      get_prop "detail" data = Normal (Some detail) ->
      truthy detail = true ->
      ToString detail = Normal m ->
      handleResponse r = Throw (Error m)) /\
   (status r < 500 ->
    forall detail,
      get_prop "detail" data = Normal detail ->
      truthy_opt detail = false ->
      (status r = 401 ->
       handleResponse r = Throw (Error "Authentication failed. Please login again.")) /\
      (status r = 403 ->
       handleResponse r
         = Throw (Error "You do not have permission to perform this action.")) /\
      (status r = 404 ->
       handleResponse r = Throw (Error "The requested resource was not found.")) /\
      (status r <> 401 -> status r <> 403 -> status r <> 404 ->
       forall values joined,
         Object_values data = Normal values ->
         join ", " (flat values) = Normal joined ->
         handleResponse r
           = Throw (Error (if String.eqb joined "" then "An error occurred"
                           else joined))))).
Proof.
  intros Hbody. split.
  - intros Hok. unfold handleResponse. rewrite Hbody, Hok. reflexivity.
  - intros Hok. unfold handleResponse, or_else. rewrite Hbody. simpl. rewrite Hok. simpl.
    split; [|split; [|split]].
    + pose proof (handleResponse_not_ok_throws r Hok) as Hthrows.
      unfold handleResponse, or_else in Hthrows. rewrite Hbody in Hthrows. simpl in Hthrows.
      rewrite Hok in Hthrows. exact Hthrows.
    + intros Hs.
      assert ((status r =? 401) = false) as -> by lia.
      assert ((status r =? 403) = false) as -> by lia.
      assert ((status r =? 404) = false) as -> by lia.
      assert ((500 <=? status r) = true) as -> by lia.
      reflexivity.
    + intros Hs detail m Hd Ht Hm.
      assert ((500 <=? status r) = false) as -> by lia.
      rewrite Hd. simpl. rewrite Ht. simpl.
      unfold throw_new_Error. rewrite Hm. simpl.
      repeat (destruct (status r =? _); [reflexivity|]). reflexivity.
    + intros Hs detail Hd Ht.
      assert ((500 <=? status r) = false) as -> by lia.
      rewrite Hd. simpl. rewrite Ht. simpl.
      split; [|split; [|split]].
      * intros ->. reflexivity.
      * intros ->. reflexivity.
      * intros ->. reflexivity.
      * intros H1 H3 H4 values joined Hv Hj.
        assert ((status r =? 401) = false) as -> by lia.
        assert ((status r =? 403) = false) as -> by lia.
        assert ((status r =? 404) = false) as -> by lia.
        rewrite Hv. simpl. rewrite Hj. simpl.
        destruct (String.eqb joined ""); reflexivity.
Qed.

(** The field errors of a 400 response are reported joined. *)
Lemma handleResponse_outcome_witness :
  handleResponse Sample.bad_request
  = Throw (Error "Enter a valid email address., This field is required., Too short.").
Proof.
  destruct (handleResponse_outcome Sample.bad_request Sample.field_errors eq_refl)
    as [_ H].
  destruct (H eq_refl) as (_ & _ & _ & H4).
  destruct (H4 ltac:(simpl; lia) None eq_refl eq_refl) as (_ & _ & _ & H5).
  exact (H5 ltac:(discriminate) ltac:(discriminate) ltac:(discriminate)
            _ _ eq_refl eq_refl).
Defined.

(** A client error whose body is a JSON string is reported with the code
    units of the string, one by one: an accented letter is one of them. *)
Example handleResponse_text_body :
  handleResponse {| status := 400; json_body := Normal (JStr "né") |}
  = Throw (Error "n, é").
Proof. reflexivity. Qed.

(** An OK response whose body arrives, as JSON or not, is accepted. *)
Lemma handleResponse_ok_returns (r : Response) :
  ok r = true ->
  (exists data, json_body r = Normal data) \/
  (exists e, json_body r = Throw e /\ name e = "SyntaxError") ->
  exists data, handleResponse r = Normal data.
Proof.
  intros Hok [[data Hb]|(e & Hb & He)]; unfold handleResponse; rewrite Hb, Hok; simpl.
  - eauto.
  - rewrite He. simpl. eauto.
Qed.

(** An exception that is not a SyntaxError passes through the handler. *)
Lemma handleResponse_body_error (r : Response) (e : exn) :
  json_body r = Throw e -> name e <> "SyntaxError" -> handleResponse r = Throw e.
Proof.
  intros Hb He. unfold handleResponse. rewrite Hb. simpl.
  destruct (String.eqb_spec (name e) "SyntaxError"); [contradiction|reflexivity].
Qed.

(** ** verifyToken *)

(** C9.  [verifyToken] always returns a boolean and never throws; it issues
    one request and leaves localStorage alone.  It returns [true] when the
    request is answered by an OK response whose body arrives (as JSON or
    not), and [false] on every failure path: the request is rejected, the
    response is not OK (whatever its body), or reading the body fails. *)
Theorem verifyToken_total (env : Env) (token : json) (w : Browser) :
  let req := {| url := API_URL +:+ "/api/auth/token/verify/";
                method := "POST";
                headers := json_headers;
                body := Some (JSON_stringify env (JObj [("token", token)])) |} in
  let w' := {| localStorage := localStorage w; sent := (sent w ++ [req])%list |} in
  (exists b, verifyToken env token w = (Normal b, w')) /\
  (forall r, network env req = Normal r -> ok r = true ->
     (exists data, json_body r = Normal data) \/
     (exists e, json_body r = Throw e /\ name e = "SyntaxError") ->
     verifyToken env token w = (Normal true, w')) /\
  (forall r, network env req = Normal r -> ok r = false ->
     verifyToken env token w = (Normal false, w')) /\
  (forall e, network env req = Throw e ->
     verifyToken env token w = (Normal false, w')) /\
  (forall r e, network env req = Normal r ->
     json_body r = Throw e -> name e <> "SyntaxError" ->
     verifyToken env token w = (Normal false, w')).
Proof.
  intros req w'.
  assert (Hrun : verifyToken env token w =
                 (Normal match network env req with
                         | Normal r => match handleResponse r with
                                       | Normal _ => true
                                       | Throw _ => false
                                       end
                         | Throw _ => false
                         end, w')).
  { unfold verifyToken, try_catch_M, mbind, fetch, lift, ret, stringify. simpl.
    fold req. destruct (network env req) as [r|e]; simpl; [|reflexivity].
    destruct (handleResponse r); reflexivity. }
  rewrite Hrun. repeat split.
  - eauto.
  - intros r Hn Hok Hb. rewrite Hn.
    destruct (handleResponse_ok_returns r Hok Hb) as [data ->]. reflexivity.
  - intros r Hn Hok. rewrite Hn.
    destruct (handleResponse_not_ok_throws r Hok) as [e ->]. reflexivity.
  - intros e ->. reflexivity.
  - intros r e Hn Hb He. rewrite Hn, (handleResponse_body_error r e Hb He).
    reflexivity.
Qed.

(** An expired token: the server answers 401 and [verifyToken] says no. *)
Lemma verifyToken_total_witness :
  verifyToken Sample.rejecting (JStr "abc") Sample.logged_out
  = (Normal false,
     {| localStorage := ∅;
        sent := [{| url := API_URL +:+ "/api/auth/token/verify/";
                    method := "POST";
                    headers := json_headers;
                    body := Some (Sample.render (JObj [("token", JStr "abc")])) |}] |}).
Proof.
  destruct (verifyToken_total Sample.rejecting (JStr "abc") Sample.logged_out)
    as (_ & _ & H & _).
  exact (H _ eq_refl eq_refl).
Defined.

(** ** refreshToken *)

Lemma own_prop_set_own_eq (k : string) (v : json) (props : list (string * json)) :
  own_prop k (set_own k v props) = Some v.
Proof.
  induction props as [|[k' v'] props IH]; simpl.
  - now rewrite String.eqb_refl.
  - destruct (String.eqb k k') eqn:E; simpl; rewrite ?String.eqb_refl, ?E; auto.
Qed.

Lemma own_prop_set_own_ne (k k0 : string) (v : json) (props : list (string * json)) :
  k0 <> k -> own_prop k0 (set_own k v props) = own_prop k0 props.
Proof.
  intros Hne. apply String.eqb_neq in Hne.
  induction props as [|[k' v'] props IH]; simpl.
  - now rewrite Hne.
  - destruct (String.eqb_spec k k') as [<-|Hk]; simpl.
    + now rewrite Hne.
    + now rewrite IH.
Qed.

(** C10, the claim as stated fails: the stored record is the JSON number
    5, the refresh is answered with an access token, and [refreshToken]
    returns the response data; yet the record written back is 5 again, and
    no access token has been stored. *)
Lemma refreshToken_keeps_number_record :
  localStorage Sample.numbered !! "sellflow_user" = Some "5" /\
  network Sample.refreshing_any
    {| url := API_URL +:+ "/api/auth/token/refresh/";
       method := "POST";
       headers := json_headers;
       body := Some (Sample.render (JObj [("refresh", JStr "refresh-1")])) |}
  = Normal {| status := 200;
              json_body := Normal (JObj [("access", JStr "new-access")]) |} /\
  fst (refreshToken Sample.refreshing_any (JStr "refresh-1") Sample.numbered)
  = Normal (JObj [("access", JStr "new-access")]) /\
  localStorage (snd (refreshToken Sample.refreshing_any (JStr "refresh-1")
                       Sample.numbered)) !! "sellflow_user"
  = Some "5" /\
  (getAuthToken Sample.refreshing_any
     (snd (refreshToken Sample.refreshing_any (JStr "refresh-1") Sample.numbered))).1
  = Normal JNull.
Proof.
  repeat split; vm_compute; reflexivity.
Qed.

(** C10, amended.  [refreshToken] issues one request.  Whenever it fails,
    for whatever reason, the browser is left without the [sellflow_user]
    item (the whole record goes, the other items stay) and the error that
    made it fail is the one thrown: so when the request is rejected and when
    [handleResponse] throws, and also when the response is accepted with a
    truthy [access] but the stored record is not JSON (a SyntaxError) or is
    [null] (a TypeError).  When the response is accepted and carries a
    truthy [access], and the stored record (the empty object when there is
    none) is an object, the record is written back with [access] set to the
    new token and every other field as it was, and the response data is
    returned.  When the stored record is JSON of another kind (a number, a
    string, a boolean, an array), it is written back as it is, without the
    token, and the response data is returned. *)
Theorem refreshToken_storage (env : Env) (token : json) (w : Browser) :
  let req := {| url := API_URL +:+ "/api/auth/token/refresh/";
                method := "POST";
                headers := json_headers;
                body := Some (JSON_stringify env (JObj [("refresh", token)])) |} in
  let cleared := {| localStorage := delete "sellflow_user" (localStorage w);
                    sent := (sent w ++ [req])%list |} in
  (forall e w', refreshToken env token w = (Throw e, w') -> w' = cleared) /\
  (forall e, network env req = Throw e ->
     refreshToken env token w = (Throw e, cleared)) /\
  (forall r e, network env req = Normal r -> handleResponse r = Throw e ->
     refreshToken env token w = (Throw e, cleared)) /\
  (forall r data access props,
     network env req = Normal r ->
     handleResponse r = Normal data ->
     get_prop "access" data = Normal (Some access) ->
     truthy access = true ->
     JSON_parse env (or_text (localStorage w !! "sellflow_user") "{}")
       = Some (JObj props) ->
     let props' := set_own "access" access props in
     refreshToken env token w
       = (Normal data,
          {| localStorage :=
               <["sellflow_user" := JSON_stringify env (JObj props')]> (localStorage w);
             sent := (sent w ++ [req])%list |}) /\
     own_prop "access" props' = Some access /\
     (forall k, k <> "access" -> own_prop k props' = own_prop k props)) /\
  (forall r data access userData,
     network env req = Normal r ->
     handleResponse r = Normal data ->
     get_prop "access" data = Normal (Some access) ->
     truthy access = true ->
     JSON_parse env (or_text (localStorage w !! "sellflow_user") "{}")
       = Some userData ->
     userData <> JNull -> (forall props, userData <> JObj props) ->
     refreshToken env token w
       = (Normal data,
          {| localStorage :=
               <["sellflow_user" := JSON_stringify env userData]> (localStorage w);
             sent := (sent w ++ [req])%list |})) /\
  (forall r data access,
     network env req = Normal r ->
     handleResponse r = Normal data ->
     get_prop "access" data = Normal (Some access) ->
     truthy access = true ->
     (JSON_parse env (or_text (localStorage w !! "sellflow_user") "{}") = None ->
      refreshToken env token w = (Throw SyntaxError, cleared)) /\
     (JSON_parse env (or_text (localStorage w !! "sellflow_user") "{}") = Some JNull ->
      refreshToken env token w = (Throw TypeError, cleared))).
Proof.
  intros req cleared.
  assert (Hrun : refreshToken env token w =
    match network env req with
    | Throw e => (Throw e, cleared)
    | Normal r =>
        match handleResponse r with
        | Throw e => (Throw e, cleared)
        | Normal data =>
            match get_prop "access" data with
            | Throw e => (Throw e, cleared)
            | Normal access =>
                if truthy_opt access then
                  match JSON_parse env (or_text (localStorage w !! "sellflow_user") "{}") with
                  | None => (Throw SyntaxError, cleared)
                  | Some userData =>
                      match set_prop "access" (default JNull access) userData with
                      | Throw e => (Throw e, cleared)
                      | Normal userData' =>
                          (Normal data,
                           {| localStorage :=
                                <["sellflow_user" := JSON_stringify env userData']>
                                  (localStorage w);
                              sent := (sent w ++ [req])%list |})
                      end
                  end
                else (Normal data,
                      {| localStorage := localStorage w;
                         sent := (sent w ++ [req])%list |})
            end
        end
    end).
  { unfold refreshToken, try_catch_M, mbind, fetch, lift, ret, throw, stringify,
      getItem, setItem, removeItem, parse. simpl. fold req.
    destruct (network env req) as [r|e]; simpl; [|reflexivity].
    destruct (handleResponse r) as [data|e]; simpl; [|reflexivity].
    destruct (get_prop "access" data) as [access|e]; simpl; [|reflexivity].
    destruct (truthy_opt access); simpl; [|reflexivity].
    destruct (JSON_parse env _) as [userData|]; simpl; [|reflexivity].
    unfold ret, throw.
    destruct (set_prop "access" (default JNull access) userData); reflexivity. }
  rewrite Hrun. clear Hrun. split; [|split; [|split; [|split; [|split]]]].
  - intros e w' H. repeat case_match; congruence.
  - intros e ->. reflexivity.
  - intros r e -> ->. reflexivity.
  - intros r data access props -> -> -> Ht Hp props'. simpl. rewrite Ht, Hp. simpl.
    split; [reflexivity|]. split.
    + apply own_prop_set_own_eq.
    + intros k Hk. now apply own_prop_set_own_ne.
  - intros r data access userData -> -> -> Ht Hp Hnull Hobj. simpl.
    rewrite Ht, Hp.
    destruct userData; simpl; try reflexivity; [contradiction|].
    exfalso. eapply Hobj. reflexivity.
  - intros r data access -> -> -> Ht. simpl. rewrite Ht.
    split; intros ->; reflexivity.
Qed.

(** A logged-in page refreshes its token: the stored record keeps its
    e-mail, refresh token and login flag, and has the new access token. *)
Lemma refreshToken_storage_witness :
  refreshToken Sample.refreshing (JStr "refresh-1") Sample.logged_in
  = (Normal (JObj [("access", JStr "new-access")]),
     {| localStorage :=
          <["sellflow_user" :=
              Sample.render (JObj [("email", JStr "ama@example.com");
                                   ("access", JStr "new-access");
                                   ("refresh", JStr "refresh-1");
                                   ("isLoggedIn", JBool true)])]>
            (localStorage Sample.logged_in);
        sent := [{| url := API_URL +:+ "/api/auth/token/refresh/";
                    method := "POST";
                    headers := json_headers;
                    body := Some (Sample.render (JObj [("refresh", JStr "refresh-1")])) |}] |}).
Proof.
  destruct (refreshToken_storage Sample.refreshing (JStr "refresh-1") Sample.logged_in)
    as (_ & _ & _ & H & _).
  destruct (H _ (JObj [("access", JStr "new-access")]) (JStr "new-access")
              [("email", JStr "ama@example.com"); ("access", JStr "old-access");
               ("refresh", JStr "refresh-1"); ("isLoggedIn", JBool true)]
              eq_refl eq_refl eq_refl eq_refl ltac:(vm_compute; reflexivity))
    as [Hrun _].
  exact Hrun.
Defined.

End ClientProofs.

(* ===================================================================== *)
(** * Properties of the cart/checkout/payment core                       *)
(* ===================================================================== *)

Module BackendProofs.
Import Backend.

(** ** Transactions *)

Lemma apply_writes_app (ws1 ws2 : list Write) (s : Store) :
  apply_writes (ws1 ++ ws2) s = apply_writes ws2 (apply_writes ws1 s).
Proof. unfold apply_writes. apply fold_left_app. Qed.

(** A transaction that commits has applied all its writes, in order. *)
Lemma run_writes_commit (fault : nat -> bool) (ws : list Write) :
  forall from working s',
    run_writes fault from ws working = Some s' -> s' = apply_writes ws working.
Proof.
  induction ws as [|w ws IH]; simpl; intros from working s' H.
  - destruct (fault from); congruence.
  - destruct (fault from); [discriminate|]. apply (IH _ _ _ H).
Qed.

(** A transaction in which the storage layer refuses an operation, a write
    or the commit, is rolled back. *)
Lemma run_writes_refused (fault : nat -> bool) (ws : list Write) :
  forall from working n,
    (from <= n <= from + length ws)%nat -> fault n = true ->
    run_writes fault from ws working = None.
Proof.
  induction ws as [|w ws IH]; simpl; intros from working n Hn Hf.
  - assert (n = from) as -> by lia. now rewrite Hf.
  - destruct (fault from) eqn:E; [reflexivity|].
    apply (IH (S from) _ n); [|exact Hf].
    assert (n <> from) by congruence. lia.
Qed.

(** A transaction in which nothing is refused commits. *)
Lemma run_writes_reliable (fault : nat -> bool) (ws : list Write) :
  forall from working,
    (forall n, (from <= n <= from + length ws)%nat -> fault n = false) ->
    run_writes fault from ws working = Some (apply_writes ws working).
Proof.
  induction ws as [|w ws IH]; simpl; intros from working Hf.
  - rewrite Hf by lia. reflexivity.
  - rewrite Hf by lia. apply IH. intros n Hn. apply Hf. lia.
Qed.

(** ** The writes of checkout *)

(** The stock decrements touch the product table and nothing else. *)
Lemma apply_decrements (checked : list (CartItem * Product)) :
  forall s,
    apply_writes
      (map (fun ip : CartItem * Product =>
              DecrementStock (product (fst ip)) (quantity (fst ip))) checked) s
    = {| products := decrement_stock checked (products s);
         carts := carts s; orders := orders s; payments := payments s;
         next_order := next_order s; next_payment := next_payment s;
         provider_calls := provider_calls s |}.
Proof.
  induction checked as [|ip checked IH]; intros s.
  - destruct s; reflexivity.
  - unfold apply_writes, decrement_stock in *. simpl. rewrite IH. reflexivity.
Qed.

Lemma apply_checkout_writes (s : Store) (buyer : Z) (shipping : ShippingInfo)
  (method : string) (checked : list (CartItem * Product)) :
  apply_writes (checkout_writes s buyer shipping method checked) s
  = after_checkout s buyer shipping method checked.
Proof.
  unfold checkout_writes. rewrite apply_writes_app, apply_decrements.
  reflexivity.
Qed.

Lemma checkout_writes_length (s : Store) (buyer : Z) (shipping : ShippingInfo)
  (method : string) (checked : list (CartItem * Product)) :
  length (checkout_writes s buyer shipping method checked) = (length checked + 3)%nat.
Proof.
  unfold checkout_writes. rewrite length_app, length_map. reflexivity.
Qed.

(** ** Checkout *)

(** C2.  Checkout of an empty cart fails with [EmptyCart] and leaves the
    store as it was: no order, no payment. *)
Theorem checkout_empty_cart (fault : nat -> bool) (buyer : Z)
  (shipping : ShippingInfo) (method : string) (s : Store) :
  cart_of buyer s = [] ->
  checkout fault buyer shipping method s = (Err EmptyCart, s).
Proof.
  intros H. unfold checkout. rewrite H. reflexivity.
Qed.

(** Account 11 has no cart. *)
Lemma checkout_empty_cart_witness :
  checkout Shop.reliable 11 Shop.address "card" Shop.open_shop
  = (Err EmptyCart, Shop.open_shop).
Proof.
  exact (checkout_empty_cart Shop.reliable 11 Shop.address "card" Shop.open_shop
           eq_refl).
Defined.

(** Checkout either stops before the transaction, or runs it. *)
Lemma checkout_cases (fault : nat -> bool) (buyer : Z)
  (shipping : ShippingInfo) (method : string) (s : Store) :
  (exists e, checkout fault buyer shipping method s = (Err e, s)) \/
  (exists checked,
     cart_of buyer s <> [] /\
     revalidate s (cart_of buyer s) = Ok checked /\
     checkout fault buyer shipping method s
     = match atomically fault (checkout_writes s buyer shipping method checked) s with
       | Some s' =>
           (Ok ((next_order s, new_order buyer shipping checked),
                (next_payment s, new_payment (next_order s) method)), s')
       | None => (Err TransactionFailed, s)
       end).
Proof.
  unfold checkout.
  destruct (cart_of buyer s) as [|it items] eqn:Hcart; [eauto|].
  destruct (revalidate s (it :: items)) as [checked|e] eqn:Hval; [|eauto].
  right. exists checked. repeat split; congruence.
Qed.

(** C1.  Every checkout ends in one of two ways.  Either it succeeds, and
    then all four effects of step 3 are in the store: every purchased
    product's stock is decremented, the order with its line-item snapshots
    is created, a pending payment for it is created, and the cart is
    cleared.  Or it fails, and then the store is exactly the one it started
    from.  In particular, when the storage layer refuses any operation of
    the transaction, the checkout is reported as failed and nothing of it is
    visible. *)
Theorem checkout_all_or_nothing (fault : nat -> bool) (buyer : Z)
  (shipping : ShippingInfo) (method : string) (s : Store) :
  ((exists e, checkout fault buyer shipping method s = (Err e, s)) \/
   (exists checked order payment s',
      checkout fault buyer shipping method s
        = (Ok ((next_order s, order), (next_payment s, payment)), s') /\
      revalidate s (cart_of buyer s) = Ok checked /\
      products s' = decrement_stock checked (products s) /\
      orders s' = <[next_order s := order]> (orders s) /\
      order_lines order = map snapshot checked /\
      payments s' = <[next_payment s := payment]> (payments s) /\
      payment_order payment = next_order s /\
      payment_status payment = Pending /\
      carts s' = <[buyer := []]> (carts s))) /\
  (forall checked n,
     cart_of buyer s <> [] ->
     revalidate s (cart_of buyer s) = Ok checked ->
     (n <= length checked + 3)%nat ->
     fault n = true ->
     checkout fault buyer shipping method s = (Err TransactionFailed, s)).
Proof.
  split.
  - destruct (checkout_cases fault buyer shipping method s)
      as [Herr|(checked & Hne & Hval & Hrun)]; [left; exact Herr|].
    unfold atomically in Hrun.
    destruct (run_writes fault 0 (checkout_writes s buyer shipping method checked) s)
      as [s'|] eqn:Htx.
    + right. apply run_writes_commit in Htx.
      rewrite apply_checkout_writes in Htx. subst s'.
      exists checked, (new_order buyer shipping checked),
        (new_payment (next_order s) method),
        (after_checkout s buyer shipping method checked).
      repeat split; assumption.
    + left. eauto.
  - intros checked n Hne Hval Hn Hf. unfold checkout.
    destruct (cart_of buyer s) as [|it items]; [congruence|].
    rewrite Hval. unfold atomically.
    rewrite (run_writes_refused fault _ 0%nat s n); [reflexivity| |exact Hf].
    rewrite checkout_writes_length. lia.
Qed.

(** The storage layer refuses the third operation of the transaction, the
    creation of the order, after both stock decrements went through: the
    checkout fails and the shop is as before. *)
Lemma checkout_all_or_nothing_witness :
  checkout Shop.failing_third 10 Shop.address "card" Shop.open_shop
  = (Err TransactionFailed, Shop.open_shop).
Proof.
  exact (proj2 (checkout_all_or_nothing Shop.failing_third 10 Shop.address "card"
                  Shop.open_shop)
           [(Build_CartItem 1 1 2, Shop.product_A);
            (Build_CartItem 2 2 1, Shop.product_B)]
           2%nat
           ltac:(vm_compute; discriminate)
           ltac:(vm_compute; reflexivity)
           ltac:(simpl; lia)
           eq_refl).
Defined.

(** The scenario of section 8 on a reliable store: the order totals 25.00
    and is pending, a pending payment is attached to it, the stock went
    from 5 and 3 to 3 and 2, and the cart is empty. *)
Example checkout_scenario :
  exists order payment,
    fst (checkout Shop.reliable 10 Shop.address "card" Shop.open_shop)
      = Ok ((1, order), (1, payment)) /\
    total_amount order = 2500 /\
    order_status order = OPending /\
    payment_status payment = Pending /\
    payment_order payment = 1 /\
    stock_quantity <$> products Shop.after_sale !! 1 = Some 3 /\
    stock_quantity <$> products Shop.after_sale !! 2 = Some 2 /\
    cart_of 10 Shop.after_sale = [].
Proof.
  eexists _, _. split; [vm_compute; reflexivity|].
  repeat split; vm_compute; reflexivity.
Qed.

(** ** Payment processing *)

(** A payment that has left [Pending] is answered from its record: no call
    to the provider, no change to the store. *)
Lemma process_payment_terminal (provider : Z -> Payment -> option string)
  (payment_id : Z) (s : Store) (p : Payment) :
  payments s !! payment_id = Some p ->
  payment_status p <> Pending ->
  process_payment provider payment_id s
  = (Ok (payment_status p, transaction_id p), s).
Proof.
  intros Hp Hs. unfold process_payment. rewrite Hp.
  destruct (payment_status p); [contradiction|reflexivity|reflexivity].
Qed.

(** Processing never leaves a payment pending. *)
Lemma process_payment_settles (provider : Z -> Payment -> option string)
  (payment_id : Z) (s : Store) (p : Payment) :
  payments s !! payment_id = Some p ->
  exists p',
    payments (process_payment provider payment_id s).2 !! payment_id = Some p' /\
    payment_status p' <> Pending /\
    (process_payment provider payment_id s).1
    = Ok (payment_status p', transaction_id p').
Proof.
  intros Hp. unfold process_payment. rewrite Hp.
  destruct (payment_status p) eqn:Hs; simpl.
  - exists (settle p (provider payment_id p)). rewrite lookup_insert_eq.
    repeat split. unfold settle; simpl. destruct (provider payment_id p); discriminate.
  - exists p. rewrite Hs. repeat split; [assumption|discriminate].
  - exists p. rewrite Hs. repeat split; [assumption|discriminate].
Qed.

(** C3.  A payment that is completed or failed is answered with its
    recorded status and transaction id, without a call to the provider and
    without any change to the store.  Hence a second [process_payment] on
    the same id returns what the first returned and changes nothing,
    whatever the provider would answer this time. *)
Theorem process_payment_idempotent (provider provider' : Z -> Payment -> option string)
  (payment_id : Z) (s : Store) :
  (forall p,
     payments s !! payment_id = Some p ->
     payment_status p <> Pending ->
     process_payment provider payment_id s
       = (Ok (payment_status p, transaction_id p), s) /\
     provider_calls (process_payment provider payment_id s).2 = provider_calls s) /\
  (forall r1 s1,
     process_payment provider payment_id s = (r1, s1) ->
     process_payment provider' payment_id s1 = (r1, s1)).
Proof.
  split.
  - intros p Hp Hs. rewrite (process_payment_terminal provider payment_id s p Hp Hs).
    split; reflexivity.
  - intros r1 s1 Hrun.
    destruct (payments s !! payment_id) as [p|] eqn:Hp.
    + destruct (process_payment_settles provider payment_id s p Hp)
        as (p' & Hp' & Hs' & Hr).
      rewrite Hrun in Hp', Hr. simpl in Hp', Hr. subst r1.
      apply process_payment_terminal; assumption.
    + unfold process_payment in Hrun. rewrite Hp in Hrun.
      injection Hrun as <- <-. unfold process_payment. rewrite Hp. reflexivity.
Qed.

(** The buyer of the sample shop checks out and pays; the provider
    confirms.  Asked again, with a provider that would now decline, the
    core answers as the first time. *)
Lemma process_payment_idempotent_witness :
  process_payment Shop.declining 1 Shop.paid
  = (Ok (Completed, Some "TXN20240115103000"), Shop.paid).
Proof.
  exact (proj2 (process_payment_idempotent Shop.confirming Shop.declining 1
                  Shop.after_sale)
           (Ok (Completed, Some "TXN20240115103000")) Shop.paid
           ltac:(vm_compute; reflexivity)).
Defined.

End BackendProofs.

(* ===================================================================== *)
(** * Further properties of the API client                               *)
(* ===================================================================== *)

Module ClientExtras.
Import Js Client.
Local Open Scope js_scope.
Local Open Scope client_scope.

(** Unfolds the plumbing of a call and splits on every outcome left open. *)
Ltac step_client :=
  unfold try_catch_M, mbind, fetch, lift, ret, throw, stringify,
    getItem, setItem, removeItem, parse; simpl.

Ltac split_client :=
  repeat case_match; simplify_eq/=; try reflexivity; try congruence.

(** ** handleResponse on bodies that cannot be used *)

(** X1.  When reading the body fails: a response that is not JSON counts as
    the empty object if it is OK and is reported as "Request failed with
    status N" if it is not; any failure other than a SyntaxError is passed
    on as it is, whatever the status. *)
Theorem handleResponse_unreadable_body (r : Response) (e : exn) :
  json_body r = Throw e ->
  (name e = "SyntaxError" -> ok r = true ->
   handleResponse r = Normal (JObj [])) /\
  (name e = "SyntaxError" -> ok r = false ->
   handleResponse r
   = Throw (Error ("Request failed with status " +:+ pretty (status r)))) /\
  (name e <> "SyntaxError" -> handleResponse r = Throw e).
Proof.
  intros Hb. unfold handleResponse. rewrite Hb. simpl. repeat split.
  - intros -> ->. reflexivity.
  - intros -> ->. reflexivity.
  - intros He. destruct (String.eqb_spec (name e) "SyntaxError"); [contradiction|reflexivity].
Qed.

(** An HTML error page from a gateway. *)
Lemma handleResponse_unreadable_body_witness :
  handleResponse {| status := 502; json_body := Throw SyntaxError |}
  = Throw (Error "Request failed with status 502").
Proof.
  exact (proj1 (proj2 (handleResponse_unreadable_body
                         {| status := 502; json_body := Throw SyntaxError |}
                         SyntaxError eq_refl))
           eq_refl eq_refl).
Defined.

(** X2.  A response that is not OK, has a status below 500 and the JSON
    body [null] makes [handleResponse] fail with the runtime's TypeError
    (from reading [data.detail]) instead of an [Error] with a message of
    its own. *)
Theorem handleResponse_null_body (r : Response) :
  ok r = false -> status r < 500 -> json_body r = Normal JNull ->
  handleResponse r = Throw TypeError.
Proof.
  intros Hok Hs Hb. unfold handleResponse. rewrite Hb. simpl. rewrite Hok. simpl.
  assert ((500 <=? status r) = false) as -> by lia.
  repeat (destruct (status r =? _); [reflexivity|]). reflexivity.
Qed.

Lemma handleResponse_null_body_witness :
  handleResponse {| status := 400; json_body := Normal JNull |} = Throw TypeError.
Proof.
  exact (handleResponse_null_body {| status := 400; json_body := Normal JNull |}
           eq_refl ltac:(simpl; lia) eq_refl).
Defined.

(** ** Field errors *)

Lemma join_strings (sep : string) (l : list string) :
  join sep (map JStr l) = Normal (String.concat sep l).
Proof.
  unfold join. induction l as [|x l IH]; [reflexivity|].
  destruct l as [|y l]; [reflexivity|].
  change (join_with ToString sep (map JStr (x :: y :: l)))
    with (r <- join_with ToString sep (map JStr (y :: l)) ;;
          Normal (x +:+ sep +:+ r)).
  rewrite IH. reflexivity.
Qed.

Lemma flat_field_errors (errors : list (string * list string)) :
  flat (map snd
          (map (fun e : string * list string => (fst e, JArr (map JStr (snd e))))
               errors))
  = map JStr (List.concat (map snd errors)).
Proof.
  unfold flat. induction errors as [|[k msgs] errors IH]; [reflexivity|].
  simpl. rewrite IH, map_app. reflexivity.
Qed.

Lemma own_prop_field_errors (k : string) (errors : list (string * list string)) :
  Forall (fun e => fst e <> k) errors ->
  own_prop k (map (fun e : string * list string => (fst e, JArr (map JStr (snd e))))
                  errors) = None.
Proof.
  induction 1 as [|[k' msgs] errors Hk _ IH]; [reflexivity|].
  simpl in *. apply not_eq_sym in Hk. apply String.eqb_neq in Hk.
  rewrite Hk. exact IH.
Qed.

(** X3.  A client error other than 401, 403 and 404 whose body lists, for
    every field, the messages about it (and has no [detail]) is reported
    with all the messages, in the order of the body, separated by a comma
    and a space; with nothing to report, the message is "An error
    occurred". *)
Theorem handleResponse_field_errors (r : Response)
  (errors : list (string * list string)) :
  json_body r = Normal (Sample.field_error_body errors) ->
  ok r = false -> status r < 500 ->
  status r <> 401 -> status r <> 403 -> status r <> 404 ->
  Forall (fun e => fst e <> "detail") errors ->
  handleResponse r
  = Throw (Error (let text := String.concat ", " (List.concat (map snd errors)) in
                  if String.eqb text "" then "An error occurred" else text)).
Proof.
  intros Hb Hok Hs H1 H3 H4 Hd.
  unfold handleResponse. rewrite Hb. simpl. rewrite Hok. simpl.
  assert ((status r =? 401) = false) as -> by lia.
  assert ((status r =? 403) = false) as -> by lia.
  assert ((status r =? 404) = false) as -> by lia.
  assert ((500 <=? status r) = false) as -> by lia.
  rewrite (own_prop_field_errors "detail" errors Hd). simpl.
  rewrite flat_field_errors, join_strings. simpl.
  destruct (String.eqb _ ""); reflexivity.
Qed.

Lemma handleResponse_field_errors_witness :
  handleResponse Sample.bad_request
  = Throw (Error "Enter a valid email address., This field is required., Too short.").
Proof.
  exact (handleResponse_field_errors Sample.bad_request
           [("email", ["Enter a valid email address."]);
            ("password", ["This field is required."; "Too short."])]
           eq_refl eq_refl ltac:(simpl; lia)
           ltac:(discriminate) ltac:(discriminate) ltac:(discriminate)
           ltac:(repeat constructor; discriminate)).
Defined.

(** ** Credentials *)

Lemma getMultipartHeaders_state (env : Env) (w : Browser) :
  (getMultipartHeaders env w).2 = w.
Proof.
  unfold getMultipartHeaders, mbind.
  pose proof (ClientProofs.getAuthToken_state env w) as H.
  destruct (getAuthToken env w) as [[token|e] w']; simpl in H; subst w'; [|reflexivity].
  destruct (truthy token); [|reflexivity].
  unfold lift, ret. destruct (ToString token); reflexivity.
Qed.

(** X4.  Reading the credentials is free of effects: [getAuthToken],
    [getAuthHeaders] and [getMultipartHeaders] leave localStorage as it is
    and issue no request, whether they return or throw. *)
Theorem credentials_read_only (env : Env) (w : Browser) :
  (getAuthToken env w).2 = w /\
  (getAuthHeaders env w).2 = w /\
  (getMultipartHeaders env w).2 = w.
Proof.
  split; [|split].
  - apply ClientProofs.getAuthToken_state.
  - apply ClientProofs.getAuthHeaders_state.
  - apply getMultipartHeaders_state.
Qed.

(** X5.  The headers of a JSON request are the two content headers followed
    by the headers of a multipart request, and the two functions fail
    together with the same error.  The multipart headers hold nothing but
    [Authorization]: never a [Content-Type]. *)
Theorem getAuthHeaders_extends_multipart (env : Env) (w : Browser) :
  getAuthHeaders env w
  = match getMultipartHeaders env w with
    | (Normal hs, w') => (Normal (json_headers ++ hs)%list, w')
    | (Throw e, w') => (Throw e, w')
    end /\
  (forall hs w', getMultipartHeaders env w = (Normal hs, w') ->
     forall h, In h hs -> fst h = "Authorization").
Proof.
  unfold getAuthHeaders, getMultipartHeaders, mbind. split.
  - destruct (getAuthToken env w) as [[token|e] w']; [|reflexivity].
    destruct (truthy token); [|reflexivity].
    unfold lift, ret. destruct (ToString token); reflexivity.
  - intros hs w'. destruct (getAuthToken env w) as [[token|e] w1]; [|discriminate].
    destruct (truthy token).
    + unfold lift, ret. destruct (ToString token); [|discriminate].
      intros [= <- <-] h [<-|[]]. reflexivity.
    + unfold ret. intros [= <- <-] h [].
Qed.

Lemma getAuthHeaders_extends_multipart_witness :
  getMultipartHeaders Sample.accepting Sample.logged_in
    = (Normal [("Authorization", "Bearer old-access")], Sample.logged_in) /\
  fst ("Authorization", "Bearer old-access") = "Authorization".
Proof.
  assert (H : getMultipartHeaders Sample.accepting Sample.logged_in
              = (Normal [("Authorization", "Bearer old-access")], Sample.logged_in))
    by (vm_compute; reflexivity).
  split; [exact H|].
  exact (proj2 (getAuthHeaders_extends_multipart Sample.accepting Sample.logged_in)
           _ _ H _ (or_introl eq_refl)).
Defined.

(** Without a stored record there is no token. *)
Lemma getAuthToken_logged_out (env : Env) (w : Browser) :
  localStorage w !! "sellflow_user" = None \/
  localStorage w !! "sellflow_user" = Some "" ->
  getAuthToken env w = (Normal JNull, w).
Proof.
  intros [H|H]; unfold getAuthToken, mbind, getItem; rewrite H; reflexivity.
Qed.

(** X6.  With no [sellflow_user] item, or an empty one, the token is
    [null], the JSON headers are the two content headers alone and the
    multipart headers are empty, without [JSON.parse] being consulted. *)
Theorem logged_out_headers (env : Env) (w : Browser) :
  localStorage w !! "sellflow_user" = None \/
  localStorage w !! "sellflow_user" = Some "" ->
  getAuthToken env w = (Normal JNull, w) /\
  getAuthHeaders env w = (Normal json_headers, w) /\
  getMultipartHeaders env w = (Normal [], w).
Proof.
  intros H. pose proof (getAuthToken_logged_out env w H) as Ht.
  unfold getAuthHeaders, getMultipartHeaders, mbind. rewrite Ht. auto.
Qed.

Lemma logged_out_headers_witness :
  getAuthHeaders Sample.accepting Sample.logged_out
  = (Normal json_headers, Sample.logged_out).
Proof.
  exact (proj1 (proj2 (logged_out_headers Sample.accepting Sample.logged_out
                         (or_introl eq_refl)))).
Defined.

(** A call that needs the credentials and cannot read them fails with the
    error of the read and issues nothing. *)
Ltac no_request H :=
  step_client; rewrite H; reflexivity.

(** X7.  When the stored record is not valid JSON, the credentials cannot
    be read: [getAuthHeaders] throws a SyntaxError, and so does every
    authenticated cart, checkout and payment call, before anything is
    handed to [fetch] and without touching localStorage. *)
Theorem corrupted_record_blocks_calls (env : Env) (w : Browser) (text : string) :
  localStorage w !! "sellflow_user" = Some text ->
  text <> "" ->
  JSON_parse env text = None ->
  getAuthHeaders env w = (Throw SyntaxError, w) /\
  getCart env w = (Throw SyntaxError, w) /\
  (forall productId quantity,
     addToCart env productId quantity w = (Throw SyntaxError, w)) /\
  clearCart env w = (Throw SyntaxError, w) /\
  (forall checkoutData, createOrder env checkoutData w = (Throw SyntaxError, w)) /\
  (forall paymentData, processPayment env paymentData w = (Throw SyntaxError, w)).
Proof.
  intros Hitem Hne Hparse.
  assert (H : getAuthHeaders env w = (Throw SyntaxError, w)).
  { unfold getAuthHeaders, getAuthToken, mbind, getItem, parse, throw.
    rewrite Hitem. simpl. apply String.eqb_neq in Hne. rewrite Hne. simpl.
    rewrite Hparse. reflexivity. }
  split; [exact H|]. repeat split; intros.
  - unfold getCart. no_request H.
  - unfold addToCart. no_request H.
  - unfold clearCart. no_request H.
  - unfold createOrder. no_request H.
  - unfold processPayment. no_request H.
Qed.

Lemma corrupted_record_blocks_calls_witness :
  createOrder Sample.accepting (JObj [("payment_method", JStr "card")]) Sample.corrupted
  = (Throw SyntaxError, Sample.corrupted).
Proof.
  destruct (corrupted_record_blocks_calls Sample.accepting Sample.corrupted
              "{not json" eq_refl ltac:(discriminate) eq_refl)
    as (_ & _ & _ & _ & H & _).
  exact (H _).
Defined.

(** ** loginUser *)

(** All the runs of [loginUser], once the credentials are an object or a
    primitive. *)
Lemma loginUser_run (env : Env) (credentials : json) (w : Browser) :
  credentials <> JNull ->
  let req := login_request env credentials in
  let w1 := {| localStorage := localStorage w; sent := (sent w ++ [req])%list |} in
  loginUser env credentials w =
  match network env req with
  | Throw e => (Throw e, w1)
  | Normal r =>
      match handleResponse r with
      | Throw e => (Throw e, w1)
      | Normal data =>
          match get_prop "access" data with
          | Throw e => (Throw e, w1)
          | Normal access =>
              match (if truthy_opt access then get_prop "refresh" data
                     else Normal None) with
              | Throw e => (Throw e, w1)
              | Normal refresh =>
                  if truthy_opt access && truthy_opt refresh then
                    match JSON_parse env (or_text (localStorage w !! "sellflow_user") "{}") with
                    | None => (Throw SyntaxError, w1)
                    | Some userData =>
                        match with_tokens (default JNull access)
                                (default JNull refresh) userData with
                        | Throw e => (Throw e, w1)
                        | Normal userData' =>
                            (Normal data,
                             {| localStorage :=
                                  <["sellflow_user" := JSON_stringify env userData']>
                                    (localStorage w);
                                sent := (sent w ++ [req])%list |})
                        end
                    end
                  else (Normal data, w1)
              end
          end
      end
  end.
Proof.
  intros Hc req w1. unfold loginUser.
  assert (He : exists v, get_prop "email" credentials = Normal v).
  { destruct credentials; simpl; eauto. contradiction. }
  destruct He as [v He]. unfold mbind at 1. unfold lift at 1. rewrite He.
  step_client. fold (login_request env credentials). fold req.
  destruct (network env req) as [r|e]; simpl; [|reflexivity].
  destruct (handleResponse r) as [data|e]; simpl; [|reflexivity].
  destruct (get_prop "access" data) as [access|e]; simpl; [|reflexivity].
  destruct (truthy_opt access); simpl.
  - destruct (get_prop "refresh" data) as [refresh|e]; simpl; [|reflexivity].
    destruct (truthy_opt refresh); simpl; [|reflexivity].
    destruct (JSON_parse env _) as [userData|]; simpl; [|reflexivity].
    unfold with_tokens, bind.
    destruct (set_prop "access" _ userData) as [u1|e]; simpl; [|reflexivity].
    destruct (set_prop "refresh" _ u1) as [u2|e]; simpl; [|reflexivity].
    destruct (set_prop "isLoggedIn" _ u2) as [u3|e]; reflexivity.
  - reflexivity.
Qed.

(** X8.  A login answered with a truthy [access] and a truthy [refresh]
    returns the response data and writes the stored record back (the empty
    object when there was none) with [access] and [refresh] set to the new
    tokens and [isLoggedIn] set to [true]; every other field of the record
    is kept. *)
Theorem loginUser_stores_tokens (env : Env) (credentials : json) (w : Browser)
  (r : Response) (data access refresh : json) (props : list (string * json)) :
  credentials <> JNull ->
  network env (login_request env credentials) = Normal r ->
  handleResponse r = Normal data ->
  get_prop "access" data = Normal (Some access) -> truthy access = true ->
  get_prop "refresh" data = Normal (Some refresh) -> truthy refresh = true ->
  JSON_parse env (or_text (localStorage w !! "sellflow_user") "{}")
    = Some (JObj props) ->
  let props' := set_own "isLoggedIn" (JBool true)
                  (set_own "refresh" refresh (set_own "access" access props)) in
  loginUser env credentials w
    = (Normal data,
       {| localStorage :=
            <["sellflow_user" := JSON_stringify env (JObj props')]> (localStorage w);
          sent := (sent w ++ [login_request env credentials])%list |}) /\
  own_prop "access" props' = Some access /\
  own_prop "refresh" props' = Some refresh /\
  own_prop "isLoggedIn" props' = Some (JBool true) /\
  (forall k, k <> "access" -> k <> "refresh" -> k <> "isLoggedIn" ->
     own_prop k props' = own_prop k props).
Proof.
  intros Hc Hn Hr Ha Hta Hrf Htr Hp props'.
  split; [|split; [|split; [|split]]].
  - rewrite (loginUser_run env credentials w Hc). simpl.
    rewrite Hn, Hr, Ha. simpl. rewrite Hta, Hrf. simpl. rewrite Htr, Hp.
    reflexivity.
  - subst props'.
    rewrite !ClientProofs.own_prop_set_own_ne by discriminate.
    apply ClientProofs.own_prop_set_own_eq.
  - subst props'.
    rewrite ClientProofs.own_prop_set_own_ne by discriminate.
    apply ClientProofs.own_prop_set_own_eq.
  - apply ClientProofs.own_prop_set_own_eq.
  - intros k H1 H2 H3. subst props'.
    rewrite !ClientProofs.own_prop_set_own_ne by assumption. reflexivity.
Qed.

(** The page of the sample logs in again and gets new tokens. *)
Lemma loginUser_stores_tokens_witness :
  loginUser Sample.logging_in Sample.credentials Sample.logged_in
  = (Normal Sample.login_tokens,
     {| localStorage :=
          <["sellflow_user" := Sample.render Sample.user_after_login]>
            (localStorage Sample.logged_in);
        sent := [login_request Sample.logging_in Sample.credentials] |}).
Proof.
  exact (proj1 (loginUser_stores_tokens Sample.logging_in Sample.credentials
                  Sample.logged_in
                  {| status := 200; json_body := Normal Sample.login_tokens |}
                  Sample.login_tokens (JStr "access-2") (JStr "refresh-2")
                  [("email", JStr "ama@example.com"); ("access", JStr "old-access");
                   ("refresh", JStr "refresh-1"); ("isLoggedIn", JBool true)]
                  ltac:(discriminate) eq_refl eq_refl eq_refl eq_refl eq_refl eq_refl
                  ltac:(vm_compute; reflexivity))).
Defined.

(** X9.  A login that fails leaves localStorage exactly as it was (unlike
    a failed token refresh, it does not log the user out), and when the
    request is rejected or the response is turned down by [handleResponse]
    the error thrown is that very error. *)
Theorem loginUser_failure_keeps_storage (env : Env) (credentials : json)
  (w : Browser) :
  (forall e w', loginUser env credentials w = (Throw e, w') ->
     localStorage w' = localStorage w) /\
  (forall e, credentials <> JNull ->
     network env (login_request env credentials) = Throw e ->
     loginUser env credentials w
     = (Throw e, {| localStorage := localStorage w;
                    sent := (sent w ++ [login_request env credentials])%list |})) /\
  (forall r e, credentials <> JNull ->
     network env (login_request env credentials) = Normal r ->
     handleResponse r = Throw e ->
     loginUser env credentials w
     = (Throw e, {| localStorage := localStorage w;
                    sent := (sent w ++ [login_request env credentials])%list |})).
Proof.
  split; [|split].
  - intros e w'.
    assert (credentials = JNull \/ credentials <> JNull) as [->|Hc]
      by (destruct credentials; auto; right; discriminate).
    + unfold loginUser, mbind, lift. simpl. intros [= <- <-]. reflexivity.
    + rewrite (loginUser_run env credentials w Hc). simpl.
      intros H. repeat case_match; simplify_eq/=; reflexivity.
  - intros e Hc Hn. rewrite (loginUser_run env credentials w Hc). simpl.
    rewrite Hn. reflexivity.
  - intros r e Hc Hn Hr. rewrite (loginUser_run env credentials w Hc). simpl.
    rewrite Hn, Hr. reflexivity.
Qed.

(** Wrong password: the server answers 401 and the stored record stays. *)
Lemma loginUser_failure_keeps_storage_witness :
  loginUser Sample.rejecting Sample.credentials Sample.logged_in
  = (Throw (Error "Token is invalid or expired"),
     {| localStorage := localStorage Sample.logged_in;
        sent := [login_request Sample.rejecting Sample.credentials] |}).
Proof.
  destruct (loginUser_failure_keeps_storage Sample.rejecting Sample.credentials
              Sample.logged_in) as (_ & _ & H).
  exact (H {| status := 401;
              json_body := Normal (JObj [("detail", JStr "Token is invalid or expired")]) |}
           _ ltac:(discriminate) eq_refl eq_refl).
Defined.



(** What a token string found in the stored record gives. *)
Lemma getAuthHeaders_of_record (env : Env) (w : Browser) (text token : string)
  (props : list (string * json)) :
  localStorage w !! "sellflow_user" = Some text ->
  text <> "" ->
  JSON_parse env text = Some (JObj props) ->
  own_prop "access" props = Some (JStr token) ->
  token <> "" ->
  getAuthToken env w = (Normal (JStr token), w) /\
  getAuthHeaders env w
  = (Normal (json_headers ++ [("Authorization", "Bearer " +:+ token)])%list, w).
Proof.
  intros Hitem Hne Hparse Ha Ht.
  apply String.eqb_neq in Hne. apply String.eqb_neq in Ht.
  assert (H : getAuthToken env w = (Normal (JStr token), w)).
  { unfold getAuthToken, mbind, getItem, parse, lift, ret. rewrite Hitem. simpl.
    rewrite Hne. simpl. rewrite Hparse. simpl. rewrite Ha. simpl.
    rewrite Ht. reflexivity. }
  split; [exact H|].
  unfold getAuthHeaders, mbind. rewrite H. simpl. rewrite Ht. reflexivity.
Qed.

(** X11.  Login and the credentials fit together: when the record stored
    before the login (the empty object when there is none) is an object,
    after a login answered with an access token that is a non-empty string
    (and a truthy refresh token), on a runtime that reads back the record
    it has just written, [getAuthToken] returns that token and
    [getAuthHeaders] carries it as [Authorization: Bearer <token>]. *)
Theorem login_then_headers (env : Env) (credentials : json) (w : Browser)
  (r : Response) (data refresh : json) (token : string)
  (props : list (string * json)) :
  credentials <> JNull ->
  network env (login_request env credentials) = Normal r ->
  handleResponse r = Normal data ->
  get_prop "access" data = Normal (Some (JStr token)) -> token <> "" ->
  get_prop "refresh" data = Normal (Some refresh) -> truthy refresh = true ->
  JSON_parse env (or_text (localStorage w !! "sellflow_user") "{}")
    = Some (JObj props) ->
  let props' := set_own "isLoggedIn" (JBool true)
                  (set_own "refresh" refresh (set_own "access" (JStr token) props)) in
  JSON_stringify env (JObj props') <> "" ->
  JSON_parse env (JSON_stringify env (JObj props')) = Some (JObj props') ->
  let w1 := snd (loginUser env credentials w) in
  getAuthToken env w1 = (Normal (JStr token), w1) /\
  getAuthHeaders env w1
  = (Normal (json_headers ++ [("Authorization", "Bearer " +:+ token)])%list, w1).
Proof.
  intros Hc Hn Hr Ha Ht Hrf Htr Hp props' Hne Hround w1.
  assert (Hw1 : w1 = {| localStorage :=
                          <["sellflow_user" := JSON_stringify env (JObj props')]>
                            (localStorage w);
                        sent := (sent w ++ [login_request env credentials])%list |}).
  { subst w1. rewrite (loginUser_run env credentials w Hc). simpl.
    rewrite Hn, Hr, Ha. simpl.
    assert (Htt : negb (String.eqb token "") = true)
      by (apply String.eqb_neq in Ht; now rewrite Ht).
    rewrite Htt, Hrf. simpl. rewrite Htr, Hp. reflexivity. }
  apply (getAuthHeaders_of_record env w1 (JSON_stringify env (JObj props')) token props').
  - rewrite Hw1. simpl. apply lookup_insert_eq.
  - exact Hne.
  - exact Hround.
  - subst props'. rewrite !ClientProofs.own_prop_set_own_ne by discriminate.
    apply ClientProofs.own_prop_set_own_eq.
  - exact Ht.
Qed.

Lemma login_then_headers_witness :
  getAuthHeaders Sample.logging_in
    (snd (loginUser Sample.logging_in Sample.credentials Sample.logged_in))
  = (Normal (json_headers ++ [("Authorization", "Bearer access-2")])%list,
     snd (loginUser Sample.logging_in Sample.credentials Sample.logged_in)).
Proof.
  exact (proj2 (login_then_headers Sample.logging_in Sample.credentials
                  Sample.logged_in
                  {| status := 200; json_body := Normal Sample.login_tokens |}
                  Sample.login_tokens (JStr "refresh-2") "access-2"
                  [("email", JStr "ama@example.com"); ("access", JStr "old-access");
                   ("refresh", JStr "refresh-1"); ("isLoggedIn", JBool true)]
                  ltac:(discriminate) eq_refl eq_refl eq_refl ltac:(discriminate)
                  eq_refl eq_refl ltac:(vm_compute; reflexivity)
                  ltac:(vm_compute; discriminate) ltac:(vm_compute; reflexivity))).
Defined.

(** ** refreshToken and logoutUser *)

(** A refresh that throws has removed the stored record. *)
Lemma refreshToken_throw_clears (env : Env) (token : json) (w : Browser)
  (e : exn) (w' : Browser) :
  refreshToken env token w = (Throw e, w') ->
  localStorage w' !! "sellflow_user" = None.
Proof.
  unfold refreshToken. step_client. intros H.
  repeat case_match; simplify_eq/=; apply lookup_delete_eq.
Qed.

(** X12.  A failed token refresh logs the user out: whatever was stored
    and for whatever reason [refreshToken] throws, afterwards the token is
    [null] and the headers of the next request carry no [Authorization]. *)
Theorem refresh_failure_logs_out (env : Env) (token : json) (w : Browser)
  (e : exn) (w' : Browser) :
  refreshToken env token w = (Throw e, w') ->
  getAuthToken env w' = (Normal JNull, w') /\
  getAuthHeaders env w' = (Normal json_headers, w').
Proof.
  intros H. apply refreshToken_throw_clears in H.
  pose proof (getAuthToken_logged_out env w' (or_introl H)) as Ht.
  split; [exact Ht|]. unfold getAuthHeaders, mbind. rewrite Ht. reflexivity.
Qed.

(** The refresh token has expired: the next request goes out anonymous. *)
Lemma refresh_failure_logs_out_witness :
  getAuthHeaders Sample.rejecting
    (snd (refreshToken Sample.rejecting (JStr "refresh-1") Sample.logged_in))
  = (Normal json_headers,
     snd (refreshToken Sample.rejecting (JStr "refresh-1") Sample.logged_in)).
Proof.
  exact (proj2 (refresh_failure_logs_out Sample.rejecting (JStr "refresh-1")
                  Sample.logged_in (Error "Token is invalid or expired")
                  (snd (refreshToken Sample.rejecting (JStr "refresh-1") Sample.logged_in))
                  ltac:(vm_compute; reflexivity))).
Defined.



(** X14.  [logoutUser] removes the stored record and nothing else from
    localStorage, issues no request and reloads the page once; afterwards
    the token is [null] and the headers carry no [Authorization]. *)
Theorem logoutUser_logs_out (env : Env) (p : Page) :
  let p' := logoutUser p in
  localStorage (browser p') = delete "sellflow_user" (localStorage (browser p)) /\
  sent (browser p') = sent (browser p) /\
  reloads p' = S (reloads p) /\
  getAuthToken env (browser p') = (Normal JNull, browser p') /\
  getAuthHeaders env (browser p') = (Normal json_headers, browser p').
Proof.
  intros p'.
  assert (H : localStorage (browser p') !! "sellflow_user" = None)
    by apply lookup_delete_eq.
  pose proof (getAuthToken_logged_out env (browser p') (or_introl H)) as Ht.
  repeat split; try reflexivity; [exact Ht|].
  unfold getAuthHeaders, mbind. rewrite Ht. reflexivity.
Qed.

(** ** Calls that do not use the credentials *)

(** X15.  The public calls never read localStorage: [getPublicProducts]
    and [getPublicOrder] always issue their request, with [Accept] as its
    only header (no [Authorization], also on a logged-in page, and no
    failure on an unreadable record), leave localStorage as it is and
    return or throw exactly what the network and [handleResponse] give. *)
Theorem public_calls_anonymous (env : Env) (w : Browser) :
  (let req := {| url := API_URL +:+ "/api/products/public/list/";
                 method := "GET";
                 headers := [("Accept", "application/json")];
                 body := None |} in
   getPublicProducts env w
   = (match network env req with
      | Normal r => handleResponse r
      | Throw e => Throw e
      end,
      {| localStorage := localStorage w; sent := (sent w ++ [req])%list |})) /\
  (forall orderUuid uuid,
     ToString orderUuid = Normal uuid ->
     let req := {| url := API_URL +:+ "/api/orders/public/order/" +:+ uuid +:+ "/";
                   method := "GET";
                   headers := [("Accept", "application/json")];
                   body := None |} in
     getPublicOrder env orderUuid w
     = (match network env req with
        | Normal r => handleResponse r
        | Throw e => Throw e
        end,
        {| localStorage := localStorage w; sent := (sent w ++ [req])%list |})).
Proof.
  split.
  - intros req. unfold getPublicProducts. step_client. fold req.
    destruct (network env req) as [r|e]; simpl; [|reflexivity].
    destruct (handleResponse r); reflexivity.
  - intros orderUuid uuid Hu req. unfold getPublicOrder. step_client.
    rewrite Hu. simpl. fold req.
    destruct (network env req) as [r|e]; simpl; [|reflexivity].
    destruct (handleResponse r); reflexivity.
Qed.

(** A shared order link is opened on a page whose stored record is
    unreadable. *)
Lemma public_calls_anonymous_witness :
  getPublicOrder Sample.accepting (JStr "0b7e-41c2") Sample.corrupted
  = (Normal (JObj []),
     {| localStorage := localStorage Sample.corrupted;
        sent := [{| url := API_URL +:+ "/api/orders/public/order/" +:+ "0b7e-41c2" +:+ "/";
                    method := "GET";
                    headers := [("Accept", "application/json")];
                    body := None |}] |}).
Proof.
  exact (proj2 (public_calls_anonymous Sample.accepting Sample.corrupted)
           (JStr "0b7e-41c2") "0b7e-41c2" eq_refl).
Defined.

(** X16.  [registerUser] never writes to localStorage, whatever the server
    answers (a registration that returns tokens does not log the user in).
    Called with [null], it throws a TypeError before any request; called
    with anything else, it issues exactly one request. *)
Theorem registerUser_stores_nothing (env : Env) (userData : json) (w : Browser) :
  localStorage (snd (registerUser env userData w)) = localStorage w /\
  (userData = JNull -> registerUser env userData w = (Throw TypeError, w)) /\
  (userData <> JNull ->
   sent (snd (registerUser env userData w))
   = (sent w ++ [{| url := API_URL +:+ "/api/auth/register/";
                    method := "POST";
                    headers := json_headers;
                    body := Some (JSON_stringify env userData) |}])%list).
Proof.
  assert (Hnull : userData = JNull ->
                  registerUser env userData w = (Throw TypeError, w)).
  { intros ->. reflexivity. }
  assert (Hrun : userData <> JNull ->
                 exists c, registerUser env userData w
                 = (c, {| localStorage := localStorage w;
                          sent := (sent w ++ [{| url := API_URL +:+ "/api/auth/register/";
                                                 method := "POST";
                                                 headers := json_headers;
                                                 body := Some (JSON_stringify env userData) |}])%list |})).
  { intros Hu. unfold registerUser.
    assert (He : exists v, get_prop "email" userData = Normal v)
      by (destruct userData; simpl; eauto; contradiction).
    destruct He as [v He]. unfold mbind at 1. unfold lift at 1. rewrite He.
    step_client. repeat case_match; simplify_eq/=; eauto. }
  split; [|split].
  - assert (userData = JNull \/ userData <> JNull) as [Hu|Hu]
      by (destruct userData; auto; right; discriminate).
    + rewrite (Hnull Hu). reflexivity.
    + destruct (Hrun Hu) as [c ->]. reflexivity.
  - exact Hnull.
  - intros Hu. destruct (Hrun Hu) as [c ->]. reflexivity.
Qed.

(** A registration answered with tokens: the page stays logged out. *)
Lemma registerUser_stores_nothing_witness :
  sent (snd (registerUser Sample.logging_in Sample.credentials Sample.logged_out))
  = [{| url := API_URL +:+ "/api/auth/register/";
        method := "POST";
        headers := json_headers;
        body := Some (Sample.render Sample.credentials) |}].
Proof.
  exact (proj2 (proj2 (registerUser_stores_nothing Sample.logging_in
                         Sample.credentials Sample.logged_out))
           ltac:(discriminate)).
Defined.

(** ** getProducts *)


(** X17.  [getProducts] forwards the [search], [category] and [page] of its
    argument and nothing else: two arguments that agree on these three
    properties behave alike, and an argument in which all three are absent
    or falsy (page 0, an empty search) behaves as no argument at all. *)
Theorem getProducts_forwards_three_keys (env : Env)
  (params params' : list (string * json)) (w : Browser) :
  ((forall k, k = "search" \/ k = "category" \/ k = "page" ->
      own_prop k params = own_prop k params') ->
   getProducts env (Some params) w = getProducts env (Some params') w) /\
  ((forall k, k = "search" \/ k = "category" \/ k = "page" ->
      truthy_opt (own_prop k params) = false) ->
   getProducts env (Some params) w = getProducts env None w).
Proof.
  split; intros H; unfold getProducts, append_if_truthy; simpl.
  - rewrite !(H "search"), !(H "category"), !(H "page") by auto. reflexivity.
  - rewrite (H "search"), (H "category"), (H "page") by auto. reflexivity.
Qed.

Lemma getProducts_forwards_three_keys_witness :
  getProducts Sample.accepting
    (Some [("page", JNum "0"); ("limit", JNum "50")]) Sample.logged_in
  = getProducts Sample.accepting None Sample.logged_in.
Proof.
  refine (proj2 (getProducts_forwards_three_keys Sample.accepting
                   [("page", JNum "0"); ("limit", JNum "50")] [] Sample.logged_in) _).
  intros k [->|[->| ->]]; reflexivity.
Defined.



(** ** Checkout from the client *)

(** A client error with a [detail] text is reported with that text. *)
Lemma handleResponse_detail_text (r : Response) (data : json) (s : string) :
  ok r = false -> status r < 500 ->
  json_body r = Normal data ->
  get_prop "detail" data = Normal (Some (JStr s)) -> s <> "" ->
  handleResponse r = Throw (Error s).
Proof.
  intros Hok Hs Hb Hd Hne. apply String.eqb_neq in Hne.
  unfold handleResponse, or_else. rewrite Hb. simpl. rewrite Hok. simpl.
  assert ((500 <=? status r) = false) as -> by lia.
  rewrite Hd. simpl. rewrite Hne. simpl.
  repeat (destruct (status r =? _); [reflexivity|]). reflexivity.
Qed.

(** X19.  [createOrder] is transparent to the outcome of the checkout: an
    OK response gives its parsed body as the created order, and a refusal
    below 500 that carries a [detail] text (an empty cart, a product short
    of stock) reaches the caller as an [Error] with exactly that text.
    Either way one request has been issued and localStorage is as before. *)
Theorem createOrder_outcome (env : Env) (checkoutData : json) (w : Browser)
  (hs : list (string * string)) (r : Response) (data : json) :
  getAuthHeaders env w = (Normal hs, w) ->
  let req := {| url := API_URL +:+ "/api/orders/checkout/";
                method := "POST";
                headers := hs;
                body := Some (JSON_stringify env checkoutData) |} in
  let w' := {| localStorage := localStorage w; sent := (sent w ++ [req])%list |} in
  network env req = Normal r ->
  json_body r = Normal data ->
  (ok r = true -> createOrder env checkoutData w = (Normal data, w')) /\
  (forall s, ok r = false -> status r < 500 ->
     get_prop "detail" data = Normal (Some (JStr s)) -> s <> "" ->
     createOrder env checkoutData w = (Throw (Error s), w')).
Proof.
  intros Hh req w' Hn Hb.
  assert (Hrun : createOrder env checkoutData w
                 = (match handleResponse r with
                    | Normal d => Normal d
                    | Throw e => Throw e
                    end, w')).
  { unfold createOrder, try_catch_M, mbind, fetch, lift, ret, throw, stringify.
    rewrite Hh. simpl. fold req. rewrite Hn. simpl.
    destruct (handleResponse r); reflexivity. }
  rewrite Hrun. split.
  - intros Hok. unfold handleResponse. rewrite Hb, Hok. reflexivity.
  - intros s Hok Hs Hd Hne.
    rewrite (handleResponse_detail_text r data s Hok Hs Hb Hd Hne). reflexivity.
Qed.

(** The server refuses the checkout of an empty cart. *)
Lemma createOrder_outcome_witness :
  createOrder (Sample.env_with (Sample.respond 400 (JObj [("detail", JStr "Cart is empty")])))
    (JObj [("payment_method", JStr "card")]) Sample.logged_in
  = (Throw (Error "Cart is empty"),
     {| localStorage := localStorage Sample.logged_in;
        sent := [{| url := API_URL +:+ "/api/orders/checkout/";
                    method := "POST";
                    headers := Sample.bearer_headers;
                    body := Some (Sample.render (JObj [("payment_method", JStr "card")])) |}] |}).
Proof.
  exact (proj2 (createOrder_outcome
                  (Sample.env_with (Sample.respond 400 (JObj [("detail", JStr "Cart is empty")])))
                  (JObj [("payment_method", JStr "card")]) Sample.logged_in
                  Sample.bearer_headers
                  {| status := 400;
                     json_body := Normal (JObj [("detail", JStr "Cart is empty")]) |}
                  (JObj [("detail", JStr "Cart is empty")])
                  ltac:(vm_compute; reflexivity) eq_refl eq_refl)
           "Cart is empty" eq_refl ltac:(simpl; lia) eq_refl ltac:(discriminate)).
Defined.

(** ** No retries *)

Ltac one_request env w :=
  unfold at_most_one_request, parse, getItem, setItem, removeItem;
  unfold try_catch_M, mbind, fetch, lift, ret, throw, stringify;
  cbv beta;
  repeat first
    [ match goal with
      | |- context [getAuthHeaders env w] =>
          let H := fresh in
          pose proof (ClientProofs.getAuthHeaders_state env w) as H;
          destruct (getAuthHeaders env w) as [[?|?] ?]; simpl in H; subst
      end
    | case_match; simplify_eq/= ];
  simpl; eauto.

(** X20.  The client never retries: whether it returns or throws, a call
    hands at most one request to [fetch]. *)
Theorem no_retries (env : Env) (w : Browser) :
  (forall u, at_most_one_request w (snd (registerUser env u w))) /\
  (forall c, at_most_one_request w (snd (loginUser env c w))) /\
  (forall t, at_most_one_request w (snd (refreshToken env t w))) /\
  (forall t, at_most_one_request w (snd (verifyToken env t w))) /\
  at_most_one_request w (snd (getPublicProducts env w)) /\
  (forall u, at_most_one_request w (snd (getPublicOrder env u w))) /\
  (forall p, at_most_one_request w (snd (getProducts env p w))) /\
  at_most_one_request w (snd (getCart env w)) /\
  (forall p q, at_most_one_request w (snd (addToCart env p q w))) /\
  (forall i q, at_most_one_request w (snd (updateCartItem env i q w))) /\
  (forall i, at_most_one_request w (snd (removeFromCart env i w))) /\
  at_most_one_request w (snd (clearCart env w)) /\
  (forall d, at_most_one_request w (snd (createOrder env d w))) /\
  (forall d, at_most_one_request w (snd (processPayment env d w))).
Proof.
  repeat split; intros.
  - unfold registerUser. one_request env w.
  - unfold loginUser. one_request env w.
  - unfold refreshToken. one_request env w.
  - unfold verifyToken. one_request env w.
  - unfold getPublicProducts. one_request env w.
  - unfold getPublicOrder. one_request env w.
  - unfold getProducts. one_request env w.
  - unfold getCart. one_request env w.
  - unfold addToCart. one_request env w.
  - unfold updateCartItem. one_request env w.
  - unfold removeFromCart. one_request env w.
  - unfold clearCart. one_request env w.
  - unfold createOrder. one_request env w.
  - unfold processPayment. one_request env w.
Qed.

End ClientExtras.
